(** * Seller statistics aggregation and rating

    A shallow embedding of [server/src/sellerRater.ts] and of the
    aggregation code of [server/src/scrapers/SellerScraper.ts].

    Conventions of the embedding.
    - A JavaScript [number] is a value of [number]: [NaN], the two
      infinities, or a finite value carried as an exact rational.  The
      special values follow IEEE 754; finite arithmetic is exact, so
      rounding, overflow and the sign of zero are not represented (every
      zero divisor met by this code is a count, hence [+0]).
    - A JavaScript string is a [string]; one character stands for one
      UTF-16 code unit, so [String.length] is [.length].
    - [undefined] results of optional chaining are [None].
    - The browser is not modelled.  A page is the record of what each
      selector used by the code finds on it. *)

From Stdlib Require Import QArith Qround Lqa Lia Bool Ascii String.
From stdpp Require Import gmap strings list fin_maps.

#[local] Set Warnings "-clear-no-such-hyp".

(** ** JavaScript numbers *)

Module JS.

Local Open Scope Q_scope.

Inductive number : Type :=
| NaN
| Inf (negative : bool)
| Fin (q : Q).

Definition of_nat (n : nat) : number := Fin (inject_Z (Z.of_nat n)).

(** [Number(b)] for a boolean. *)
Definition of_bool (b : bool) : number := if b then Fin 1 else Fin 0.

Definition isNaN (x : number) : bool :=
  match x with NaN => true | _ => false end.

Definition Qlt_bool (p q : Q) : bool := negb (Qle_bool q p).

Definition Qsign_neg (q : Q) : bool := Qlt_bool q 0.

(** [x + y] *)
Definition add (x y : number) : number :=
  match x, y with
  | NaN, _ | _, NaN => NaN
  | Inf a, Inf b => if Bool.eqb a b then Inf a else NaN
  | Inf a, Fin _ => Inf a
  | Fin _, Inf b => Inf b
  | Fin p, Fin q => Fin (p + q)
  end.

(** [-x] *)
Definition neg (x : number) : number :=
  match x with
  | NaN => NaN
  | Inf a => Inf (negb a)
  | Fin p => Fin (- p)
  end.

(** [x - y] *)
Definition sub (x y : number) : number := add x (neg y).

(** [x * y] *)
Definition mul (x y : number) : number :=
  match x, y with
  | NaN, _ | _, NaN => NaN
  | Inf a, Inf b => Inf (xorb a b)
  | Inf a, Fin q => if Qeq_bool q 0 then NaN else Inf (xorb a (Qsign_neg q))
  | Fin p, Inf b => if Qeq_bool p 0 then NaN else Inf (xorb (Qsign_neg p) b)
  | Fin p, Fin q => Fin (p * q)
  end.

(** [x / y]; a zero divisor is [+0]. *)
Definition div (x y : number) : number :=
  match x, y with
  | NaN, _ | _, NaN => NaN
  | Inf _, Inf _ => NaN
  | Inf a, Fin q => Inf (xorb a (Qsign_neg q))
  | Fin _, Inf _ => Fin 0
  | Fin p, Fin q =>
      if Qeq_bool q 0
      then (if Qeq_bool p 0 then NaN else Inf (Qsign_neg p))
      else Fin (p / q)
  end.

(** [x < y] *)
Definition lt (x y : number) : bool :=
  match x, y with
  | NaN, _ | _, NaN => false
  | Inf a, Inf b => a && negb b
  | Inf a, Fin _ => a
  | Fin _, Inf b => negb b
  | Fin p, Fin q => Qlt_bool p q
  end.

(** [x > y] *)
Definition gt (x y : number) : bool := lt y x.

(** [x <= y] *)
Definition le (x y : number) : bool :=
  match x, y with
  | NaN, _ | _, NaN => false
  | Inf a, Inf b => a || negb b
  | Inf a, Fin _ => a
  | Fin _, Inf b => negb b
  | Fin p, Fin q => Qle_bool p q
  end.

(** [x == y] on numbers *)
Definition eq (x y : number) : bool :=
  match x, y with
  | NaN, _ | _, NaN => false
  | Inf a, Inf b => Bool.eqb a b
  | Fin p, Fin q => Qeq_bool p q
  | _, _ => false
  end.

(** [ToBoolean]: [NaN] and zero are falsy. *)
Definition truthy (x : number) : bool :=
  match x with
  | NaN => false
  | Inf _ => true
  | Fin p => negb (Qeq_bool p 0)
  end.

(** [x || y] on numbers *)
Definition or (x y : number) : number := if truthy x then x else y.

(** [Math.max(x, y)] and [Math.min(x, y)] *)
Definition max (x y : number) : number :=
  match x, y with
  | NaN, _ | _, NaN => NaN
  | _, _ => if lt x y then y else x
  end.

Definition min (x y : number) : number :=
  match x, y with
  | NaN, _ | _, NaN => NaN
  | _, _ => if lt y x then y else x
  end.

(** A value of type [number | undefined] used where a number is expected:
    [ToNumber(undefined)] is [NaN]. *)
Definition to_number (v : option number) : number :=
  match v with Some x => x | None => NaN end.

(** What a call completes with: a value, or a thrown [TypeError]. *)
Inductive completion (A : Type) : Type :=
| Normal (a : A)
| Throw_TypeError.
Arguments Normal {A} a.
Arguments Throw_TypeError {A}.

End JS.

Abbreviation number := JS.number.
Abbreviation NaN := JS.NaN.
Abbreviation Fin := JS.Fin.
Abbreviation Inf := JS.Inf.

(** Modelled from the spec: [clamp] of [server/src/util/math.ts], which
    the rater imports and whose file is not part of the sources at hand.
    The spec uses it as [clamp(value, lower, upper)], the value limited
    to the interval from [lower] to [upper].  What it returns for [NaN]
    the spec does not say; the statements below use it on other values
    only. *)
Definition clamp (value lower upper : number) : number :=
  JS.min (JS.max value lower) upper.

(** ** [util/dates.ts] *)

Record TimeInfo : Type := {
  seconds : number;
  minutes : number;
  hours : number;
  days : number;
  months : number;
  years : number
}.

(** ** [sellerRater.ts] *)

Inductive SellerFlag : Type :=
| LowActiveItems
| LowSoldItems
| HighCheapItems
| LowImages
| ShortDescriptions
| LowReturns
| LowReturnPayment
| LowFreePostage
| LowFeedbackCount
| PoorFeedback
| HighDuplicateFeedback
| NewAccount.

#[global] Instance SellerFlag_eq_dec : EqDecision SellerFlag.
Proof. solve_decision. Defined.

(** [interface SellerStats]; [timeSinceCreation] is the optional key,
    [None] when the object does not have it. *)
Record SellerStats : Type := {
  activeItems : number;
  soldItems : number;
  cheapItemsPercentage : number;
  averageImageCount : number;
  averageDescriptionLength : number;
  acceptReturnsPercentage : number;
  sellerPaysReturnsPercentage : number;
  freePostagePercentage : number;
  feedbackCount : number;
  positiveFeedbackPercentage : number;
  duplicateFeedbackPercentage : number;
  timeSinceCreation : option TimeInfo
}.

(** [keyof SellerStats] *)
Inductive StatKey : Type :=
| K_activeItems
| K_soldItems
| K_cheapItemsPercentage
| K_averageImageCount
| K_averageDescriptionLength
| K_acceptReturnsPercentage
| K_sellerPaysReturnsPercentage
| K_freePostagePercentage
| K_feedbackCount
| K_positiveFeedbackPercentage
| K_duplicateFeedbackPercentage
| K_timeSinceCreation.

#[global] Instance StatKey_eq_dec : EqDecision StatKey.
Proof. solve_decision. Defined.

Record FactorMeta : Type := { weight : number; max : number }.

Definition factorValues (key : StatKey) : FactorMeta :=
  match key with
  | K_activeItems => {| weight := Fin 1; max := Fin 60 |}
  | K_soldItems => {| weight := Fin 8; max := Fin 1000 |}
  | K_cheapItemsPercentage => {| weight := Fin (-3); max := Fin 100 |}
  | K_averageImageCount => {| weight := Fin 2; max := Fin 7 |}
  | K_averageDescriptionLength => {| weight := Fin 1; max := Fin 100 |}
  | K_acceptReturnsPercentage => {| weight := Fin 10; max := Fin 100 |}
  | K_sellerPaysReturnsPercentage => {| weight := Fin 3; max := Fin 100 |}
  | K_freePostagePercentage => {| weight := Fin 3; max := Fin 100 |}
  | K_feedbackCount => {| weight := Fin 20; max := Fin 100 |}
  | K_positiveFeedbackPercentage => {| weight := Fin 10; max := Fin 100 |}
  | K_duplicateFeedbackPercentage => {| weight := Fin (-10); max := Fin 100 |}
  | K_timeSinceCreation => {| weight := Fin 7; max := JS.mul (Fin 365) (Fin 2) |}
  end.

Definition factorFlags (key : StatKey) : SellerFlag :=
  match key with
  | K_activeItems => LowActiveItems
  | K_soldItems => LowSoldItems
  | K_cheapItemsPercentage => HighCheapItems
  | K_averageImageCount => LowImages
  | K_averageDescriptionLength => ShortDescriptions
  | K_acceptReturnsPercentage => LowReturns
  | K_sellerPaysReturnsPercentage => LowReturnPayment
  | K_freePostagePercentage => LowFreePostage
  | K_feedbackCount => LowFeedbackCount
  | K_positiveFeedbackPercentage => PoorFeedback
  | K_duplicateFeedbackPercentage => HighDuplicateFeedback
  | K_timeSinceCreation => NewAccount
  end.

(** The value side of an entry: [number | TimeInfo]. *)
Inductive StatValue : Type :=
| V_number (x : number)
| V_time (t : TimeInfo).

(** [Object.entries(sellerStats)]: the own keys in the order in which
    they were created.  The record type stands for objects created as the
    scraper creates its own, in the order of the interface with
    [timeSinceCreation] last and only when it has been set; no statement
    below depends on that order. *)
Definition statsEntries (sellerStats : SellerStats) : list (StatKey * StatValue) :=
  [ (K_activeItems, V_number (activeItems sellerStats));
    (K_soldItems, V_number (soldItems sellerStats));
    (K_cheapItemsPercentage, V_number (cheapItemsPercentage sellerStats));
    (K_averageImageCount, V_number (averageImageCount sellerStats));
    (K_averageDescriptionLength, V_number (averageDescriptionLength sellerStats));
    (K_acceptReturnsPercentage, V_number (acceptReturnsPercentage sellerStats));
    (K_sellerPaysReturnsPercentage, V_number (sellerPaysReturnsPercentage sellerStats));
    (K_freePostagePercentage, V_number (freePostagePercentage sellerStats));
    (K_feedbackCount, V_number (feedbackCount sellerStats));
    (K_positiveFeedbackPercentage, V_number (positiveFeedbackPercentage sellerStats));
    (K_duplicateFeedbackPercentage, V_number (duplicateFeedbackPercentage sellerStats)) ]
  ++ match timeSinceCreation sellerStats with
     | Some t => [ (K_timeSinceCreation, V_time t) ]
     | None => []
     end.

(** The variables the [forEach] callback of [rateSeller] closes over. *)
Record Totals : Type := {
  totalPositiveWeightedScore : number;
  totalNegativeWeightedScore : number;
  maximumPositiveScore : number;
  minimumNegativeScore : number;
  flags : list SellerFlag
}.

Definition initialTotals : Totals :=
  {| totalPositiveWeightedScore := Fin 0;
     totalNegativeWeightedScore := Fin 0;
     maximumPositiveScore := Fin 0;
     minimumNegativeScore := Fin 0;
     flags := [] |}.

(** The number the callback works with.  For the key [timeSinceCreation]
    it is the [days] of the value; a value used as a number without being
    one divides to [NaN]. *)
Definition entryNumber (key : StatKey) (value : StatValue) : number :=
  if decide (key = K_timeSinceCreation) then
    match value with
    | V_time timeSinceCreation => days timeSinceCreation
    | V_number _ => NaN
    end
  else
    match value with
    | V_number x => x
    | V_time _ => NaN
    end.

Definition normalizedValueAsPercent (key : StatKey) (value : number) : number :=
  JS.mul (JS.div value (max (factorValues key))) (Fin 100).

(** One call of the [forEach] callback. *)
Definition visit (acc : Totals) (entry : StatKey * StatValue) : Totals :=
  let '(key, value) := entry in
  let value := entryNumber key value in
  let factorMeta := factorValues key in
  let normalizedValue := JS.div value (max factorMeta) in
  let normalizedValueAsPercent := JS.mul normalizedValue (Fin 100) in
  if JS.gt (weight factorMeta) (Fin 0) then
    let weightedValue :=
      clamp (JS.mul normalizedValue (weight factorMeta)) (Fin 0) (weight factorMeta) in
    {| totalPositiveWeightedScore := JS.add (totalPositiveWeightedScore acc) weightedValue;
       totalNegativeWeightedScore := totalNegativeWeightedScore acc;
       maximumPositiveScore := JS.add (maximumPositiveScore acc) (weight factorMeta);
       minimumNegativeScore := minimumNegativeScore acc;
       flags := if JS.lt normalizedValueAsPercent (Fin 20)
                then flags acc ++ [factorFlags key]
                else flags acc |}
  else
    let weightedValue :=
      clamp (JS.mul normalizedValue (weight factorMeta)) (weight factorMeta) (Fin 0) in
    {| totalPositiveWeightedScore := totalPositiveWeightedScore acc;
       totalNegativeWeightedScore := JS.add (totalNegativeWeightedScore acc) weightedValue;
       maximumPositiveScore := maximumPositiveScore acc;
       minimumNegativeScore := JS.add (minimumNegativeScore acc) (weight factorMeta);
       flags := if (bool_decide (key = K_duplicateFeedbackPercentage)
                    && JS.gt normalizedValueAsPercent (Fin 10))
                   || JS.gt normalizedValueAsPercent (Fin 65)
                then flags acc ++ [factorFlags key]
                else flags acc |}.

(** The totals once [forEach] has run over all entries. *)
Definition rateSeller_totals (sellerStats : SellerStats) : Totals :=
  foldl visit initialTotals (statsEntries sellerStats).

Definition normalizedPositiveScore (t : Totals) : number :=
  JS.mul (JS.div (totalPositiveWeightedScore t) (maximumPositiveScore t)) (Fin 100).

Definition normalizedNegativeScore (t : Totals) : number :=
  JS.mul (JS.div (totalNegativeWeightedScore t) (minimumNegativeScore t)) (Fin 100).

Definition rateSeller (sellerStats : SellerStats) : number * list SellerFlag :=
  let t := rateSeller_totals sellerStats in
  let normalizedScore :=
    clamp (JS.sub (normalizedPositiveScore t) (normalizedNegativeScore t)) (Fin 0) (Fin 100) in
  (normalizedScore, flags t).

(** ** Strings *)

(** [s.startsWith(prefix)] *)
Definition startsWith (s prefix : string) : bool := String.prefix prefix s.

(** [s.slice(1)] *)
Definition slice1 (s : string) : string :=
  match s with
  | EmptyString => EmptyString
  | String _ rest => rest
  end.

(** [s.split(sep)] for a separator of one character; the result always
    has at least one piece. *)
Fixpoint split (sep : Ascii.ascii) (s : string) : list string :=
  match s with
  | EmptyString => [EmptyString]
  | String c rest =>
      if Ascii.eqb c sep then EmptyString :: split sep rest
      else match split sep rest with
           | piece :: pieces => String c piece :: pieces
           | [] => [String c EmptyString]
           end
  end.

(** White space and line terminators among the code units below 256. *)
Definition isWhiteSpace (c : Ascii.ascii) : bool :=
  let n := Ascii.nat_of_ascii c in
  (Nat.leb 9 n && Nat.leb n 13) || Nat.eqb n 32 || Nat.eqb n 160.

Fixpoint trimStart (s : string) : string :=
  match s with
  | EmptyString => EmptyString
  | String c rest => if isWhiteSpace c then trimStart rest else s
  end.

Fixpoint trimEnd (s : string) : string :=
  match s with
  | EmptyString => EmptyString
  | String c rest =>
      match trimEnd rest with
      | EmptyString => if isWhiteSpace c then EmptyString else String c EmptyString
      | kept => String c kept
      end
  end.

(** [s.trim()] *)
Definition trim (s : string) : string := trimEnd (trimStart s).

(** ** [scrapers/SellerScraper.ts] *)

Record PostageDetails : Type := { allowsPostage : bool; isFree : bool }.

Record ReturnDetails : Type := { returnAllowed : bool; sellerPays : bool }.

(** The criteria for an item to be classified as cheap. *)
Definition CHEAP_ITEM_CRITERIA : number := Fin 10.

(** The field initialiser of the class. *)
Definition initialSellerStats : SellerStats :=
  {| activeItems := Fin 0;
     soldItems := Fin 0;
     cheapItemsPercentage := Fin 0;
     averageImageCount := Fin 0;
     averageDescriptionLength := Fin 0;
     acceptReturnsPercentage := Fin 0;
     sellerPaysReturnsPercentage := Fin 0;
     freePostagePercentage := Fin 0;
     feedbackCount := Fin 0;
     positiveFeedbackPercentage := Fin 0;
     duplicateFeedbackPercentage := Fin 0;
     timeSinceCreation := None |}.

(** Assignments to single fields of [this.sellerStats]. *)
Definition set_activeItems (v : number) (s : SellerStats) : SellerStats :=
  {| activeItems := v;
     soldItems := soldItems s;
     cheapItemsPercentage := cheapItemsPercentage s;
     averageImageCount := averageImageCount s;
     averageDescriptionLength := averageDescriptionLength s;
     acceptReturnsPercentage := acceptReturnsPercentage s;
     sellerPaysReturnsPercentage := sellerPaysReturnsPercentage s;
     freePostagePercentage := freePostagePercentage s;
     feedbackCount := feedbackCount s;
     positiveFeedbackPercentage := positiveFeedbackPercentage s;
     duplicateFeedbackPercentage := duplicateFeedbackPercentage s;
     timeSinceCreation := timeSinceCreation s |}.

Definition set_cheapItemsPercentage (v : number) (s : SellerStats) : SellerStats :=
  {| activeItems := activeItems s;
     soldItems := soldItems s;
     cheapItemsPercentage := v;
     averageImageCount := averageImageCount s;
     averageDescriptionLength := averageDescriptionLength s;
     acceptReturnsPercentage := acceptReturnsPercentage s;
     sellerPaysReturnsPercentage := sellerPaysReturnsPercentage s;
     freePostagePercentage := freePostagePercentage s;
     feedbackCount := feedbackCount s;
     positiveFeedbackPercentage := positiveFeedbackPercentage s;
     duplicateFeedbackPercentage := duplicateFeedbackPercentage s;
     timeSinceCreation := timeSinceCreation s |}.

(** The five assignments that end [browseItemDetails], in one step. *)
Definition set_itemDetails
    (images description freePostage acceptReturns sellerPaysReturns : number)
    (s : SellerStats) : SellerStats :=
  {| activeItems := activeItems s;
     soldItems := soldItems s;
     cheapItemsPercentage := cheapItemsPercentage s;
     averageImageCount := images;
     averageDescriptionLength := description;
     acceptReturnsPercentage := acceptReturns;
     sellerPaysReturnsPercentage := sellerPaysReturns;
     freePostagePercentage := freePostage;
     feedbackCount := feedbackCount s;
     positiveFeedbackPercentage := positiveFeedbackPercentage s;
     duplicateFeedbackPercentage := duplicateFeedbackPercentage s;
     timeSinceCreation := timeSinceCreation s |}.

(** *** Cheap items *)

Section CheapItems.

(** The built-in [parseFloat], left abstract. *)
Variable parseFloat : string -> number.

(** One task of the [map]: the text of a price element ([None] when
    the element has no text) is parsed after dropping the currency
    sign.  [parseFloat(undefined)] is [NaN]. *)
Definition priceTask (counts : nat * nat) (priceText : option string) : nat * nat :=
  let '(priceCount, cheapPriceCount) := counts in
  let price :=
    match priceText with
    | Some text => parseFloat (slice1 text)
    | None => NaN
    end in
  (S priceCount,
   if JS.le price CHEAP_ITEM_CRITERIA then S cheapPriceCount else cheapPriceCount).

Definition getCheapItemsPercentage
    (itemPriceElements : list (option string)) (sellerStats : SellerStats) : SellerStats :=
  let itemPriceElements := tail itemPriceElements in
  let '(priceCount, cheapPriceCount) := foldl priceTask (0, 0) itemPriceElements in
  set_cheapItemsPercentage
    (JS.mul (JS.div (JS.of_nat cheapPriceCount) (JS.of_nat priceCount)) (Fin 100))
    sellerStats.

End CheapItems.

(** *** Item details *)

(** The document inside the description frame: the text of [#ds_div]
    when the element is there. *)
Record Frame : Type := { ds_div : option string }.

(** The element [#desc_ifr] and its content frame, when it has one. *)
Record Iframe : Type := { contentFrame : option Frame }.

(** What the selectors of the item methods find on an item page. *)
Record ItemPage : Type := {
  imageButtons : nat;
  desc_ifr : option Iframe;
  postagePrice : option string;
  returnInfoDiv : option string
}.

(** A listing link and what navigating to it does. *)
Inductive ItemLink : Type :=
| LinkLoads (itemPage : ItemPage)
| LinkFails.

(** The result is [undefined] when the frame element, its content frame
    or the description element is missing. *)
Definition getItemDescriptionLength (itemPage : ItemPage) : option number :=
  iframe ← desc_ifr itemPage;
  contentFrame ← contentFrame iframe;
  descriptionEl ← ds_div contentFrame;
  Some (JS.of_nat (String.length descriptionEl)).

Definition getItemImageCount (itemPage : ItemPage) : number :=
  JS.of_nat (imageButtons itemPage).

Definition getPostageDetails (itemPage : ItemPage) : PostageDetails :=
  match postagePrice itemPage with
  | None => {| allowsPostage := false; isFree := false |}
  | Some priceText => {| allowsPostage := true; isFree := startsWith priceText "Free" |}
  end.

(** [returnInfo?.split(".")[1].trim().startsWith("Seller")]: the chain
    is [undefined] when [returnInfo] is; otherwise [trim] is called on
    the element of index 1, which throws when there is none. *)
Definition sellerPaysOf (returnInfo : option string) : JS.completion (option bool) :=
  match returnInfo with
  | None => JS.Normal None
  | Some text =>
      match split "."%char text !! 1 with
      | None => JS.Throw_TypeError
      | Some sentence => JS.Normal (Some (startsWith (trim sentence) "Seller"))
      end
  end.

Definition getReturnDetails (itemPage : ItemPage) : JS.completion ReturnDetails :=
  let returnInfo := returnInfoDiv itemPage in
  if default false ((fun text => startsWith text "No") <$> returnInfo)
  then JS.Normal {| returnAllowed := false; sellerPays := false |}
  else
    match sellerPaysOf returnInfo with
    | JS.Throw_TypeError => JS.Throw_TypeError
    | JS.Normal sellerPays =>
        JS.Normal {| returnAllowed := true; sellerPays := default false sellerPays |}
    end.

(** The local variables of [browseItemDetails]. *)
Record ItemTotals : Type := {
  totalImageCount : number;
  totalDescriptionLength : number;
  allowPostageCount : number;
  freePostageCount : number;
  acceptReturnsCount : number;
  sellerPaysReturnPostageCount : number
}.

Definition noItems : ItemTotals :=
  {| totalImageCount := Fin 0;
     totalDescriptionLength := Fin 0;
     allowPostageCount := Fin 0;
     freePostageCount := Fin 0;
     acceptReturnsCount := Fin 0;
     sellerPaysReturnPostageCount := Fin 0 |}.

(** One turn of the loop over the links.  A failed navigation leaves the
    totals as they are. *)
Definition sampleItem (t : ItemTotals) (linkTag : ItemLink) : JS.completion ItemTotals :=
  match linkTag with
  | LinkFails => JS.Normal t
  | LinkLoads itemPage =>
      let images := JS.add (totalImageCount t) (getItemImageCount itemPage) in
      let description :=
        JS.add (totalDescriptionLength t) (JS.to_number (getItemDescriptionLength itemPage)) in
      let postageDetails := getPostageDetails itemPage in
      let allowPostage := JS.add (allowPostageCount t) (JS.of_bool (allowsPostage postageDetails)) in
      let freePostage := JS.add (freePostageCount t) (JS.of_bool (isFree postageDetails)) in
      match getReturnDetails itemPage with
      | JS.Throw_TypeError => JS.Throw_TypeError
      | JS.Normal returnDetails =>
          JS.Normal
            {| totalImageCount := images;
               totalDescriptionLength := description;
               allowPostageCount := allowPostage;
               freePostageCount := freePostage;
               acceptReturnsCount :=
                 JS.add (acceptReturnsCount t) (JS.of_bool (returnAllowed returnDetails));
               sellerPaysReturnPostageCount :=
                 JS.add (sellerPaysReturnPostageCount t) (JS.of_bool (sellerPays returnDetails)) |}
      end
  end.

Fixpoint sampleItems (t : ItemTotals) (itemLinks : list ItemLink) : JS.completion ItemTotals :=
  match itemLinks with
  | [] => JS.Normal t
  | linkTag :: rest =>
      match sampleItem t linkTag with
      | JS.Throw_TypeError => JS.Throw_TypeError
      | JS.Normal t' => sampleItems t' rest
      end
  end.

(** The method acts on [this.sellerStats]: the result is the record
    after the call and how the call completed. *)
Definition browseItemDetails
    (itemLinks : list ItemLink) (sellerStats : SellerStats) : SellerStats * JS.completion unit :=
  let itemLinks := tail itemLinks in
  let sellerStats := set_activeItems (JS.of_nat (length itemLinks)) sellerStats in
  match sampleItems noItems itemLinks with
  | JS.Throw_TypeError => (sellerStats, JS.Throw_TypeError)
  | JS.Normal t =>
      (set_itemDetails
         (JS.or (JS.div (totalImageCount t) (activeItems sellerStats)) (Fin 0))
         (JS.or (JS.div (totalDescriptionLength t) (activeItems sellerStats)) (Fin 0))
         (JS.or (JS.mul (JS.div (freePostageCount t) (allowPostageCount t)) (Fin 100)) (Fin 0))
         (JS.or (JS.mul (JS.div (acceptReturnsCount t) (activeItems sellerStats)) (Fin 100)) (Fin 0))
         (JS.or (JS.mul (JS.div (sellerPaysReturnPostageCount t) (acceptReturnsCount t)) (Fin 100))
                (Fin 0))
         sellerStats,
       JS.Normal tt)
  end.

(** *** Duplicate feedback *)

(** A row of the feedback table: the text of its comment element and of
    the element naming who left it, each [None] when the row has no such
    element. *)
Record FeedbackRow : Type := {
  card__comment : option string;
  card__from : option string
}.

(** The map from a comment to the users that said it, and the counter. *)
Definition FeedbackState : Type := gmap string (list (option string)) * nat.

(** The part of a task after its last [await]: it runs to its end
    without another task in between. *)
Definition feedbackTask (st : FeedbackState) (fbContainer : FeedbackRow) : FeedbackState :=
  let '(feedbackComments, duplicateFeedbackCount) := st in
  match trim <$> card__comment fbContainer with
  | None => st
  | Some comment =>
      if bool_decide (comment = EmptyString) then st
      else if Nat.ltb (String.length comment) 15 then st
      else
        let username := card__from fbContainer in
        match feedbackComments !! comment with
        | None => (<[comment := [username]]> feedbackComments, duplicateFeedbackCount)
        | Some storedComment =>
            if bool_decide (username ∈ storedComment) then st
            else
              let storedComment := storedComment ++ [username] in
              (<[comment := storedComment]> feedbackComments,
               if Nat.ltb 1 (length storedComment)
               then S duplicateFeedbackCount
               else duplicateFeedbackCount)
        end
  end.

(** The tasks in the order in which they reach that part. *)
Definition scanFeedback (completionOrder : list FeedbackRow) : FeedbackState :=
  foldl feedbackTask (∅, 0) completionOrder.

(** The value returned when the tasks of the rows left after [shift]
    complete in the order [completionOrder]. *)
Definition findDuplicateFeedbackPercentage_in
    (completionOrder feedbackContainers : list FeedbackRow) : number :=
  let feedbackContainers := tail feedbackContainers in
  let duplicateFeedbackCount := snd (scanFeedback completionOrder) in
  JS.mul (JS.div (JS.of_nat duplicateFeedbackCount) (JS.of_nat (length feedbackContainers)))
         (Fin 100).

(** The values the method can return: one for each order in which the
    tasks of the remaining rows can complete. *)
Inductive findDuplicateFeedbackPercentage (feedbackContainers : list FeedbackRow)
  : number -> Prop :=
| findDuplicateFeedbackPercentage_order (completionOrder : list FeedbackRow) :
    completionOrder ≡ₚ tail feedbackContainers ->
    findDuplicateFeedbackPercentage feedbackContainers
      (findDuplicateFeedbackPercentage_in completionOrder feedbackContainers).

(** ** Notions used to state the properties *)

(** No number the rater reads from the record is [NaN]. *)
Definition noNaN (sellerStats : SellerStats) : Prop :=
  Forall (fun entry => JS.isNaN (entryNumber entry.1 entry.2) = false)
         (statsEntries sellerStats).

(** [x] lies in the interval from 0 to 100. *)
Definition inRange0to100 (x : number) : Prop :=
  JS.le (Fin 0) x = true ∧ JS.le x (Fin 100) = true.

(** [this.sellerStats.timeSinceCreation = t] *)
Definition set_timeSinceCreation (t : TimeInfo) (s : SellerStats) : SellerStats :=
  {| activeItems := activeItems s;
     soldItems := soldItems s;
     cheapItemsPercentage := cheapItemsPercentage s;
     averageImageCount := averageImageCount s;
     averageDescriptionLength := averageDescriptionLength s;
     acceptReturnsPercentage := acceptReturnsPercentage s;
     sellerPaysReturnsPercentage := sellerPaysReturnsPercentage s;
     freePostagePercentage := freePostagePercentage s;
     feedbackCount := feedbackCount s;
     positiveFeedbackPercentage := positiveFeedbackPercentage s;
     duplicateFeedbackPercentage := duplicateFeedbackPercentage s;
     timeSinceCreation := Some t |}.

(** The test under which the callback pushes the flag of [key], on the
    number [x] it reads for that key. *)
Definition flagRaised (key : StatKey) (x : number) : bool :=
  if JS.gt (weight (factorValues key)) (Fin 0)
  then JS.lt (normalizedValueAsPercent key x) (Fin 20)
  else (bool_decide (key = K_duplicateFeedbackPercentage)
        && JS.gt (normalizedValueAsPercent key x) (Fin 10))
       || JS.gt (normalizedValueAsPercent key x) (Fin 65).

(** The percentage above which a negative factor is flagged. *)
Definition negativeThreshold (key : StatKey) : number :=
  if bool_decide (key = K_duplicateFeedbackPercentage) then Fin 10 else Fin 65.

(** A duration of which only the days matter to the rater. *)
Definition daysOnly (d : number) : TimeInfo :=
  {| seconds := Fin 0; minutes := Fin 0; hours := Fin 0;
     days := d; months := Fin 0; years := Fin 0 |}.

(** A record with every factor at its ceiling and the two negative
    factors at zero; the account age is left open. *)
Definition sellerAtCeilings (t : TimeInfo) : SellerStats :=
  {| activeItems := Fin 60;
     soldItems := Fin 1000;
     cheapItemsPercentage := Fin 0;
     averageImageCount := Fin 7;
     averageDescriptionLength := Fin 100;
     acceptReturnsPercentage := Fin 100;
     sellerPaysReturnsPercentage := Fin 100;
     freePostagePercentage := Fin 100;
     feedbackCount := Fin 100;
     positiveFeedbackPercentage := Fin 100;
     duplicateFeedbackPercentage := Fin 0;
     timeSinceCreation := Some t |}.

(** The same record aged two years, with [NaN] as number of sold items:
    what [Number] makes of a count that could not be read. *)
Definition sellerWithNaN : SellerStats :=
  {| activeItems := Fin 60;
     soldItems := NaN;
     cheapItemsPercentage := Fin 0;
     averageImageCount := Fin 7;
     averageDescriptionLength := Fin 100;
     acceptReturnsPercentage := Fin 100;
     sellerPaysReturnsPercentage := Fin 100;
     freePostagePercentage := Fin 100;
     feedbackCount := Fin 100;
     positiveFeedbackPercentage := Fin 100;
     duplicateFeedbackPercentage := Fin 0;
     timeSinceCreation := Some (daysOnly (Fin 730)) |}.

(** The comment and the user a row brings to the scan, when its comment
    passes the two guards of the task. *)
Definition counted (fbContainer : FeedbackRow) : option (string * option string) :=
  match trim <$> card__comment fbContainer with
  | None => None
  | Some comment =>
      if bool_decide (comment = EmptyString) then None
      else if Nat.ltb (String.length comment) 15 then None
      else Some (comment, card__from fbContainer)
  end.

(** Who said what among the rows, each pair once. *)
Definition said (rows : list FeedbackRow) : gset (string * option string) :=
  list_to_set (omap counted rows).

(** The distinct comments among the rows. *)
Definition comments (rows : list FeedbackRow) : gset string :=
  set_map fst (said rows).

(** The distinct users that said [comment]. *)
Definition reviewers (comment : string) (rows : list FeedbackRow) : gset (option string) :=
  set_map snd (filter (fun p => p.1 = comment) (said rows)).

(** The rows whose counted comment is not [comment]. *)
Definition without (comment : string) (rows : list FeedbackRow) : list FeedbackRow :=
  filter (fun row => fst <$> counted row ≠ Some comment) rows.

(** How the state of the scan relates to the pairs [P] counted so far:
    the map holds exactly these pairs, no stored list is empty, and the
    counter is the number of pairs less the number of comments. *)
Definition scanInvariant (st : FeedbackState) (P : gset (string * option string)) : Prop :=
  (∀ comment username,
     (comment, username) ∈ P ↔ ∃ users, st.1 !! comment = Some users ∧ username ∈ users) ∧
  (∀ comment users, st.1 !! comment = Some users → users ≠ []) ∧
  st.2 + size (dom st.1) = size P.

(** An item page with three images and free postage, with the given
    description text and returns text. *)
Definition itemPageWith (description returns : option string) : ItemPage :=
  {| imageButtons := 3;
     desc_ifr := Some {| contentFrame := Some {| ds_div := description |} |};
     postagePrice := Some "Free"%string;
     returnInfoDiv := returns |}.

(** The same page without the description frame element. *)
Definition itemPageWithoutFrame (returns : option string) : ItemPage :=
  {| imageButtons := 3;
     desc_ifr := None;
     postagePrice := Some "Free"%string;
     returnInfoDiv := returns |}.

(** The links of a search page: the honeypot, an item with a description
    of ten characters, and an item without description frame. *)
Definition describedAndUndescribed : list ItemLink :=
  [ LinkFails;
    LinkLoads (itemPageWith (Some "0123456789"%string)
                            (Some "30 days returns. Seller pays."%string));
    LinkLoads (itemPageWithoutFrame (Some "30 days returns. Seller pays."%string)) ].

(** Three rows with one comment of 27 characters from three users, and
    a fourth that repeats the first. *)
Definition sameCommentRow (username : string) : FeedbackRow :=
  {| card__comment := Some "Great seller, fast delivery"%string;
     card__from := Some username |}.

Definition threeReviewers : list FeedbackRow :=
  [ sameCommentRow "a"; sameCommentRow "b"; sameCommentRow "c"; sameCommentRow "a" ].

(** What the rows of [comment] add to the final count. *)
Definition contribution (comment : string) (rows : list FeedbackRow) : nat :=
  snd (scanFeedback rows) - snd (scanFeedback (without comment rows)).

(** ** The rest of [util/dates.ts] *)

(** [Math.floor(x)] *)
Definition Math_floor (x : number) : number :=
  match x with
  | Fin q => Fin (inject_Z (Qfloor q))
  | other => other
  end.

Definition getTimeInfo (time : number) : TimeInfo :=
  let seconds := Math_floor (JS.div time (Fin 1000)) in
  let minutes := Math_floor (JS.div seconds (Fin 60)) in
  let hours := Math_floor (JS.div minutes (Fin 60)) in
  let days := Math_floor (JS.div hours (Fin 24)) in
  let months := Math_floor (JS.div days (Fin 30)) in
  let years := Math_floor (JS.div months (Fin 12)) in
  {| seconds := seconds;
     minutes := minutes;
     hours := hours;
     days := days;
     months := months;
     years := years |}.

(** A [Date] is its time value, the number [getTime()] returns;
    [currentTime] is that of [new Date()] at the call. *)
Definition getTimeSince (currentTime date : number) : TimeInfo :=
  let timeDifference := JS.sub currentTime date in
  getTimeInfo timeDifference.

(** ** The rest of [scrapers/SellerScraper.ts] *)

(** [s.slice(0, -1)] *)
Definition sliceButLast (s : string) : string :=
  String.substring 0 (String.length s - 1) s.

(** Whether the character occurs in the string. *)
Fixpoint occurs (c : Ascii.ascii) (s : string) : bool :=
  match s with
  | EmptyString => false
  | String c' rest => Ascii.eqb c' c || occurs c rest
  end.

Definition set_soldItems (v : number) (s : SellerStats) : SellerStats :=
  {| activeItems := activeItems s;
     soldItems := v;
     cheapItemsPercentage := cheapItemsPercentage s;
     averageImageCount := averageImageCount s;
     averageDescriptionLength := averageDescriptionLength s;
     acceptReturnsPercentage := acceptReturnsPercentage s;
     sellerPaysReturnsPercentage := sellerPaysReturnsPercentage s;
     freePostagePercentage := freePostagePercentage s;
     feedbackCount := feedbackCount s;
     positiveFeedbackPercentage := positiveFeedbackPercentage s;
     duplicateFeedbackPercentage := duplicateFeedbackPercentage s;
     timeSinceCreation := timeSinceCreation s |}.

Definition set_feedbackCount (v : number) (s : SellerStats) : SellerStats :=
  {| activeItems := activeItems s;
     soldItems := soldItems s;
     cheapItemsPercentage := cheapItemsPercentage s;
     averageImageCount := averageImageCount s;
     averageDescriptionLength := averageDescriptionLength s;
     acceptReturnsPercentage := acceptReturnsPercentage s;
     sellerPaysReturnsPercentage := sellerPaysReturnsPercentage s;
     freePostagePercentage := freePostagePercentage s;
     feedbackCount := v;
     positiveFeedbackPercentage := positiveFeedbackPercentage s;
     duplicateFeedbackPercentage := duplicateFeedbackPercentage s;
     timeSinceCreation := timeSinceCreation s |}.

Definition set_positiveFeedbackPercentage (v : number) (s : SellerStats) : SellerStats :=
  {| activeItems := activeItems s;
     soldItems := soldItems s;
     cheapItemsPercentage := cheapItemsPercentage s;
     averageImageCount := averageImageCount s;
     averageDescriptionLength := averageDescriptionLength s;
     acceptReturnsPercentage := acceptReturnsPercentage s;
     sellerPaysReturnsPercentage := sellerPaysReturnsPercentage s;
     freePostagePercentage := freePostagePercentage s;
     feedbackCount := feedbackCount s;
     positiveFeedbackPercentage := v;
     duplicateFeedbackPercentage := duplicateFeedbackPercentage s;
     timeSinceCreation := timeSinceCreation s |}.

Definition set_duplicateFeedbackPercentage (v : number) (s : SellerStats) : SellerStats :=
  {| activeItems := activeItems s;
     soldItems := soldItems s;
     cheapItemsPercentage := cheapItemsPercentage s;
     averageImageCount := averageImageCount s;
     averageDescriptionLength := averageDescriptionLength s;
     acceptReturnsPercentage := acceptReturnsPercentage s;
     sellerPaysReturnsPercentage := sellerPaysReturnsPercentage s;
     freePostagePercentage := freePostagePercentage s;
     feedbackCount := feedbackCount s;
     positiveFeedbackPercentage := positiveFeedbackPercentage s;
     duplicateFeedbackPercentage := v;
     timeSinceCreation := timeSinceCreation s |}.

(** What the selectors of the feedback methods find on the feedback
    page, as it is once the largest page size has been chosen. *)
Record FeedbackPage : Type := {
  userTopLine : option string;
  positiveFeedbackText : option string;
  feedbackCards : list FeedbackRow
}.

(** What the scraper reads of a seller: the title of the second
    statistic of the seller card, the price elements and the links of the
    search page, the feedback page, and the second label of the about
    section; each text is [None] when its element is not there. *)
Record Site : Type := {
  soldItemsText : option string;
  itemPriceElements : list (option string);
  itemLinks : list ItemLink;
  feedbackPage : FeedbackPage;
  creationDate : option string
}.

Section Scraper.

(** The built-ins [parseFloat], [Number] on a string and the time value
    of [new Date(text)], left abstract, and the time value of the
    [new Date()] of the run. *)
Variable parseFloat : string -> number.
Variable Number_of_string : string -> number.
Variable Date_of_string : string -> number.
Variable currentTime : number.

(** [Number(v)] for [v] a string or [undefined]. *)
Definition Number_of (v : option string) : number :=
  match v with
  | Some text => Number_of_string text
  | None => NaN
  end.

(** [new Date(v).getTime()] for [v] a string or [undefined]. *)
Definition Date_of (v : option string) : number :=
  match v with
  | Some text => Date_of_string text
  | None => NaN
  end.

Definition getSoldItems (soldItemsText : option string) (sellerStats : SellerStats)
  : SellerStats :=
  set_soldItems
    (Number_of (text ← soldItemsText; split " " text !! 0))
    sellerStats.

Definition getFeedbackCount (feedbackPage : FeedbackPage) : number :=
  Number_of (userTopLine feedbackPage).

(** Indexing [words] throws when the element was not found; the last
    word loses its last character before [Number] reads it. *)
Definition getPositiveFeedbackPercentage (feedbackPage : FeedbackPage)
  : JS.completion number :=
  match positiveFeedbackText feedbackPage with
  | None => JS.Throw_TypeError
  | Some feedbackPercentageDetails =>
      let words := split " " feedbackPercentageDetails in
      match words !! (length words - 1) with
      | None => JS.Throw_TypeError
      | Some word => JS.Normal (Number_of_string (sliceButLast word))
      end
  end.

(** [completionOrder] is the order in which the tasks of the duplicate
    scan complete. *)
Definition browseSellerFeedback
    (completionOrder : list FeedbackRow) (feedbackPage : FeedbackPage)
    (sellerStats : SellerStats) : SellerStats * JS.completion unit :=
  let sellerStats := set_feedbackCount (getFeedbackCount feedbackPage) sellerStats in
  match getPositiveFeedbackPercentage feedbackPage with
  | JS.Throw_TypeError => (sellerStats, JS.Throw_TypeError)
  | JS.Normal positive =>
      let sellerStats := set_positiveFeedbackPercentage positive sellerStats in
      (set_duplicateFeedbackPercentage
         (findDuplicateFeedbackPercentage_in completionOrder (feedbackCards feedbackPage))
         sellerStats,
       JS.Normal tt)
  end.

Definition getAccountAge (creationDate : option string) (sellerStats : SellerStats)
  : SellerStats :=
  set_timeSinceCreation (getTimeSince currentTime (Date_of creationDate)) sellerStats.

(** The steps of [scrapeSellerData] after the browser is set up, on the
    record the class starts with; a step that throws ends the run. *)
Definition scrapeSellerData (completionOrder : list FeedbackRow) (site : Site)
  : SellerStats * JS.completion unit :=
  let sellerStats := getSoldItems (soldItemsText site) initialSellerStats in
  let sellerStats := getCheapItemsPercentage parseFloat (itemPriceElements site) sellerStats in
  match browseItemDetails (itemLinks site) sellerStats with
  | (sellerStats, JS.Throw_TypeError) => (sellerStats, JS.Throw_TypeError)
  | (sellerStats, JS.Normal _) =>
      match browseSellerFeedback completionOrder (feedbackPage site) sellerStats with
      | (sellerStats, JS.Throw_TypeError) => (sellerStats, JS.Throw_TypeError)
      | (sellerStats, JS.Normal _) =>
          (getAccountAge (creationDate site) sellerStats, JS.Normal tt)
      end
  end.

End Scraper.

(** ** Further notions used to state properties *)

(** The price a task compares with the criteria. *)
Definition parsedPrice (parseFloat : string -> number) (priceText : option string) : number :=
  match priceText with
  | Some text => parseFloat (slice1 text)
  | None => NaN
  end.

(** All flags, in the order of the keys of the record. *)
Definition allFlags : list SellerFlag :=
  [ LowActiveItems; LowSoldItems; HighCheapItems; LowImages; ShortDescriptions;
    LowReturns; LowReturnPayment; LowFreePostage; LowFeedbackCount; PoorFeedback;
    HighDuplicateFeedback; NewAccount ].

(** The item pages among the links that load. *)
Definition loadedPages (itemLinks : list ItemLink) : list ItemPage :=
  omap (fun linkTag => match linkTag with
                       | LinkLoads itemPage => Some itemPage
                       | LinkFails => None
                       end) itemLinks.

(** The totals kept by [browseItemDetails] are finite and ordered as
    counts are: free postage within postage, seller-paid returns within
    returns, returns within the [n] items seen; the sum of description
    lengths may have become [NaN]. *)
Definition itemTotalsBounded (t : ItemTotals) (n : nat) : Prop :=
  exists i a f r p : Q,
    totalImageCount t = Fin i /\
    allowPostageCount t = Fin a /\
    freePostageCount t = Fin f /\
    acceptReturnsCount t = Fin r /\
    sellerPaysReturnPostageCount t = Fin p /\
    (0 <= i)%Q /\ (0 <= f)%Q /\ (f <= a)%Q /\ (0 <= p)%Q /\ (p <= r)%Q /\
    (r <= inject_Z (Z.of_nat n))%Q /\
    (totalDescriptionLength t = NaN \/
     exists d : Q, totalDescriptionLength t = Fin d /\ (0 <= d)%Q).

(** Every positive factor of the record is at its ceiling or above and
    every negative factor at zero or below. *)
Definition atBest (s : SellerStats) : Prop :=
  forall key value,
    (key, value) ∈ statsEntries s ->
    if JS.gt (weight (factorValues key)) (Fin 0)
    then JS.le (max (factorValues key)) (entryNumber key value) = true
    else JS.le (entryNumber key value) (Fin 0) = true.

(** Every positive factor of the record is at zero or below, and no
    negative factor is [NaN]. *)
Definition nothingPositive (s : SellerStats) : Prop :=
  forall key value,
    (key, value) ∈ statsEntries s ->
    if JS.gt (weight (factorValues key)) (Fin 0)
    then JS.le (entryNumber key value) (Fin 0) = true
    else JS.isNaN (entryNumber key value) = false.

(** The record of a seller about whom nothing good is known, with half
    of the feedback duplicated. *)
Definition sellerWithNothing : SellerStats :=
  set_duplicateFeedbackPercentage (Fin 50)
    (set_timeSinceCreation (daysOnly (Fin 0)) initialSellerStats).

(** A finite number that is not negative. *)
Definition finiteNonNegative (x : number) : Prop :=
  exists q : Q, x = Fin q /\ (0 <= q)%Q.

(** A finite number between 0 and 100. *)
Definition finitePercentage (x : number) : Prop :=
  exists q : Q, x = Fin q /\ (0 <= q)%Q /\ (q <= 100)%Q.

(** The number a record holds for a key: the field of that name, for
    [timeSinceCreation] its [days], nothing when that key is absent. *)
Definition recordNumber (s : SellerStats) (key : StatKey) : option number :=
  match key with
  | K_activeItems => Some (activeItems s)
  | K_soldItems => Some (soldItems s)
  | K_cheapItemsPercentage => Some (cheapItemsPercentage s)
  | K_averageImageCount => Some (averageImageCount s)
  | K_averageDescriptionLength => Some (averageDescriptionLength s)
  | K_acceptReturnsPercentage => Some (acceptReturnsPercentage s)
  | K_sellerPaysReturnsPercentage => Some (sellerPaysReturnsPercentage s)
  | K_freePostagePercentage => Some (freePostagePercentage s)
  | K_feedbackCount => Some (feedbackCount s)
  | K_positiveFeedbackPercentage => Some (positiveFeedbackPercentage s)
  | K_duplicateFeedbackPercentage => Some (duplicateFeedbackPercentage s)
  | K_timeSinceCreation => days <$> timeSinceCreation s
  end.

(** * Properties *)

(** ** Numbers *)

Section NumberFacts.

Local Open Scope Q_scope.

Lemma Qlt_bool_true (p q : Q) : JS.Qlt_bool p q = true <-> p < q.
Proof.
  unfold JS.Qlt_bool. rewrite negb_true_iff.
  split.
  - intros H. apply Qnot_le_lt. intros Hle.
    apply Qle_bool_iff in Hle. congruence.
  - intros H. destruct (Qle_bool q p) eqn:E; [|done].
    apply Qle_bool_iff in E. exfalso. exact (Qlt_not_le _ _ H E).
Qed.

Lemma Qlt_bool_false (p q : Q) : JS.Qlt_bool p q = false <-> q <= p.
Proof.
  unfold JS.Qlt_bool. rewrite negb_false_iff. apply Qle_bool_iff.
Qed.

(** A value that is not [NaN] is clamped to a finite value between
    the two finite bounds. *)
Lemma clamp_range (x : number) (lo hi : Q) :
  JS.isNaN x = false -> lo <= hi ->
  exists q, clamp x (Fin lo) (Fin hi) = Fin q /\ lo <= q <= hi.
Proof.
  intros Hx Hlh. unfold clamp.
  destruct x as [|[|]|p]; [done| | |]; cbn.
  - (* -Infinity *)
    destruct (JS.Qlt_bool hi lo) eqn:E.
    + apply Qlt_bool_true in E. exfalso. exact (Qlt_not_le _ _ E Hlh).
    + exists lo. split; [done|]. split; [apply Qle_refl | done].
  - (* +Infinity *)
    exists hi. split; [done|]. split; [done | apply Qle_refl].
  - destruct (JS.Qlt_bool p lo) eqn:E1; cbn.
    + destruct (JS.Qlt_bool hi lo) eqn:E2.
      * apply Qlt_bool_true in E2. exfalso. exact (Qlt_not_le _ _ E2 Hlh).
      * exists lo. split; [done|]. split; [apply Qle_refl | done].
    + apply Qlt_bool_false in E1.
      destruct (JS.Qlt_bool hi p) eqn:E2.
      * exists hi. split; [done|]. split; [done | apply Qle_refl].
      * apply Qlt_bool_false in E2. exists p. done.
Qed.

Lemma div_notNaN (x : number) (m : Q) :
  ~ m == 0 -> JS.isNaN x = false -> JS.isNaN (JS.div x (Fin m)) = false.
Proof.
  intros Hm Hx. destruct x as [| |p]; [done|done|]. cbn.
  destruct (Qeq_bool m 0) eqn:E; [|done].
  apply Qeq_bool_iff in E. done.
Qed.

Lemma mul_notNaN (x : number) (w : Q) :
  ~ w == 0 -> JS.isNaN x = false -> JS.isNaN (JS.mul x (Fin w)) = false.
Proof.
  intros Hw Hx. destruct x as [| |p]; [done| |done]. cbn.
  destruct (Qeq_bool w 0) eqn:E; [|done].
  apply Qeq_bool_iff in E. done.
Qed.

(** [<] and [==] exclude each other. *)
Lemma lt_eq_excl (x y : number) : JS.eq x y = true -> JS.lt x y = false.
Proof.
  destruct x as [|a|p], y as [|b|q]; cbn; try done.
  - destruct a, b; done.
  - intros H%Qeq_bool_iff. apply Qlt_bool_false. rewrite H. apply Qle_refl.
Qed.

Lemma gt_eq_excl (x y : number) : JS.eq x y = true -> JS.gt x y = false.
Proof.
  destruct x as [|a|p], y as [|b|q]; cbn; try done.
  - destruct a, b; done.
  - intros H%Qeq_bool_iff. apply Qlt_bool_false. rewrite H. apply Qle_refl.
Qed.

End NumberFacts.

(** ** The rater *)

Section RaterFacts.

Local Open Scope Q_scope.

(** Every factor has a finite weight and a finite, non-zero ceiling;
    the weight is either above or below zero. *)
Lemma factor_cases (key : StatKey) :
  exists w m,
    factorValues key = {| weight := Fin w; max := Fin m |} /\
    ~ m == 0 /\
    ((JS.gt (Fin w) (Fin 0) = true /\ 0 < w) \/
     (JS.gt (Fin w) (Fin 0) = false /\ w < 0)).
Proof.
  destruct key;
    (eexists _, _; split; [reflexivity|]; split;
     [by intros H; vm_compute in H
     | first [by left; split; vm_compute | by right; split; vm_compute]]).
Qed.

(** The two running sums stay finite as long as the numbers read from
    the record are not [NaN]. *)
Lemma visit_finite (acc : Totals) (key : StatKey) (value : StatValue) :
  JS.isNaN (entryNumber key value) = false ->
  (exists p n, totalPositiveWeightedScore acc = Fin p /\
               totalNegativeWeightedScore acc = Fin n) ->
  exists p n, totalPositiveWeightedScore (visit acc (key, value)) = Fin p /\
              totalNegativeWeightedScore (visit acc (key, value)) = Fin n.
Proof.
  intros Hx (p & n & Hp & Hn).
  destruct (factor_cases key) as (w & m & Hf & Hm & [[Hgt Hw]|[Hgt Hw]]);
    unfold visit; rewrite Hf; cbn [weight max]; rewrite Hgt;
    cbn [totalPositiveWeightedScore totalNegativeWeightedScore].
  - destruct (clamp_range (JS.mul (JS.div (entryNumber key value) (Fin m)) (Fin w)) 0 w)
      as (q & -> & _).
    + apply mul_notNaN; [|by apply div_notNaN].
      intros E. rewrite E in Hw. by apply Qlt_irrefl in Hw.
    + by apply Qlt_le_weak.
    + rewrite Hp. by eexists _, _.
  - destruct (clamp_range (JS.mul (JS.div (entryNumber key value) (Fin m)) (Fin w)) w 0)
      as (q & -> & _).
    + apply mul_notNaN; [|by apply div_notNaN].
      intros E. rewrite E in Hw. by apply Qlt_irrefl in Hw.
    + by apply Qlt_le_weak.
    + rewrite Hn. by eexists _, _.
Qed.

Lemma totals_finite (entries : list (StatKey * StatValue)) (acc : Totals) :
  Forall (fun entry => JS.isNaN (entryNumber entry.1 entry.2) = false) entries ->
  (exists p n, totalPositiveWeightedScore acc = Fin p /\
               totalNegativeWeightedScore acc = Fin n) ->
  exists p n, totalPositiveWeightedScore (foldl visit acc entries) = Fin p /\
              totalNegativeWeightedScore (foldl visit acc entries) = Fin n.
Proof.
  revert acc. induction entries as [|[key value] entries IH]; intros acc Hall Hacc.
  - done.
  - inversion Hall as [|? ? Hx Hrest]; subst. cbn [foldl].
    apply IH; [done|]. by apply visit_finite.
Qed.

(** The ceiling sums of a record that has all twelve keys. *)
Lemma ceilings_full (s : SellerStats) (t : TimeInfo) :
  timeSinceCreation s = Some t ->
  maximumPositiveScore (rateSeller_totals s) = Fin 65 /\
  minimumNegativeScore (rateSeller_totals s) = Fin (-13).
Proof.
  intros H. unfold rateSeller_totals, statsEntries. rewrite H.
  split; reflexivity.
Qed.

(** The ceiling sums of a record without [timeSinceCreation]. *)
Lemma ceilings_without_time (s : SellerStats) :
  timeSinceCreation s = None ->
  maximumPositiveScore (rateSeller_totals s) = Fin 58 /\
  minimumNegativeScore (rateSeller_totals s) = Fin (-13).
Proof.
  intros H. unfold rateSeller_totals, statsEntries. rewrite H.
  split; reflexivity.
Qed.

End RaterFacts.

Section FlagFacts.

Local Open Scope Q_scope.

Lemma flags_visit (acc : Totals) (key : StatKey) (value : StatValue) :
  flags (visit acc (key, value)) =
  if flagRaised key (entryNumber key value)
  then flags acc ++ [factorFlags key]
  else flags acc.
Proof.
  unfold visit, flagRaised, normalizedValueAsPercent.
  by destruct (JS.gt (weight (factorValues key)) (Fin 0)).
Qed.

(** A flag is in the final list when it was there before or when some
    entry raised it. *)
Lemma flags_foldl (entries : list (StatKey * StatValue)) (acc : Totals) (f : SellerFlag) :
  f ∈ flags (foldl visit acc entries) <->
  f ∈ flags acc \/
  exists key value,
    (key, value) ∈ entries /\ factorFlags key = f /\
    flagRaised key (entryNumber key value) = true.
Proof.
  revert acc. induction entries as [|[key value] entries IH]; intros acc; cbn [foldl].
  - split; [by left|]. intros [H|(k & v & H & _)]; [done|]. by apply elem_of_nil in H.
  - rewrite IH, flags_visit. split.
    + intros [H|(k & v & Hin & Hf & Hr)].
      * destruct (flagRaised key (entryNumber key value)) eqn:E; [|by left].
        apply elem_of_app in H as [H|H]; [by left|].
        apply list_elem_of_singleton in H as ->.
        right. exists key, value. split; [left|done].
      * right. exists k, v. split; [by right|done].
    + intros [H|(k & v & Hin & Hf & Hr)].
      * left. destruct (flagRaised key (entryNumber key value)); [|done].
        apply elem_of_app. by left.
      * apply elem_of_cons in Hin as [Heq|Hin].
        -- injection Heq as -> ->. left. rewrite Hr, <- Hf.
           apply elem_of_app. right. by apply list_elem_of_singleton.
        -- right. by exists k, v.
Qed.

Lemma factorFlags_inj (k1 k2 : StatKey) : factorFlags k1 = factorFlags k2 -> k1 = k2.
Proof. by destruct k1, k2. Qed.

(** A key occurs once among the entries of a record. *)
Lemma statsEntries_key_once (s : SellerStats) (key : StatKey) (v1 v2 : StatValue) :
  (key, v1) ∈ statsEntries s -> (key, v2) ∈ statsEntries s -> v1 = v2.
Proof.
  assert (Hnd : NoDup (statsEntries s).*1).
  { unfold statsEntries. destruct (timeSinceCreation s); cbn;
      by apply (bool_decide_unpack _); vm_compute. }
  revert Hnd. generalize (statsEntries s). intros l.
  induction l as [|[k v] l IH]; cbn; intros Hnd H1 H2.
  - by apply elem_of_nil in H1.
  - apply NoDup_cons in Hnd as [Hk Hnd].
    apply elem_of_cons in H1 as [E1|H1]; apply elem_of_cons in H2 as [E2|H2].
    + congruence.
    + injection E1 as -> ->. exfalso. apply Hk.
      apply list_elem_of_fmap. by exists (k, v2).
    + injection E2 as -> ->. exfalso. apply Hk.
      apply list_elem_of_fmap. by exists (k, v1).
    + by apply IH.
Qed.

(** Whether the flag of a key of the record is in the result is
    decided by the test on that key alone. *)
Lemma flag_iff_raised (s : SellerStats) (key : StatKey) (value : StatValue) :
  (key, value) ∈ statsEntries s ->
  factorFlags key ∈ (rateSeller s).2 <->
  flagRaised key (entryNumber key value) = true.
Proof.
  intros Hin. unfold rateSeller. cbn [snd]. unfold rateSeller_totals.
  rewrite flags_foldl. split.
  - intros [H|(k & v & Hk & Hf & Hr)]; [by apply elem_of_nil in H|].
    apply factorFlags_inj in Hf as ->.
    by rewrite (statsEntries_key_once s key value v Hin Hk).
  - intros Hr. right. by exists key, value.
Qed.

Lemma gt_65_10 (x : number) : JS.gt x (Fin 65) = true -> JS.gt x (Fin 10) = true.
Proof.
  destruct x as [|a|p]; cbn; [done|done|].
  rewrite !Qlt_bool_true. intros H.
  eapply Qlt_trans; [|exact H]. by vm_compute.
Qed.

Lemma flagRaised_negative (key : StatKey) (x : number) :
  JS.gt (weight (factorValues key)) (Fin 0) = false ->
  flagRaised key x = JS.gt (normalizedValueAsPercent key x) (negativeThreshold key).
Proof.
  intros Hw. unfold flagRaised, negativeThreshold. rewrite Hw.
  destruct (bool_decide (key = K_duplicateFeedbackPercentage)); cbn [andb]; [|done].
  destruct (JS.gt (normalizedValueAsPercent key x) (Fin 65)) eqn:E.
  - by rewrite (gt_65_10 _ E).
  - by rewrite orb_false_r.
Qed.

End FlagFacts.

(** ** Claims on [rateSeller] *)

Section RaterClaims.

Local Open Scope Q_scope.

(** C1: for every fully populated record, one that has all twelve keys
    and, as the record of the spec, no [NaN] among its numbers, the ceiling
    sums are 65 and -13, the score is
    [clamp(positiveScore - negativeScore, 0, 100)] of the two sums
    normalized by these ceilings, and it lies between 0 and 100. *)
Theorem rateSeller_score_in_range (s : SellerStats) (t : TimeInfo) :
  timeSinceCreation s = Some t ->
  noNaN s ->
  let totals := rateSeller_totals s in
  maximumPositiveScore totals = Fin 65 /\
  minimumNegativeScore totals = Fin (-13) /\
  (rateSeller s).1 =
    clamp (JS.sub
             (JS.mul (JS.div (totalPositiveWeightedScore totals) (Fin 65)) (Fin 100))
             (JS.mul (JS.div (totalNegativeWeightedScore totals) (Fin (-13))) (Fin 100)))
          (Fin 0) (Fin 100) /\
  inRange0to100 (rateSeller s).1.
Proof.
  intros Ht Hnan totals.
  destruct (ceilings_full s t Ht) as [Hmax Hmin].
  destruct (totals_finite (statsEntries s) initialTotals Hnan) as (p & n & Hp & Hn).
  { by exists 0, 0. }
  fold (rateSeller_totals s) in Hp, Hn. fold totals in Hmax, Hmin, Hp, Hn.
  split; [done|]. split; [done|].
  assert (Hscore : (rateSeller s).1 =
    clamp (JS.sub
             (JS.mul (JS.div (totalPositiveWeightedScore totals) (Fin 65)) (Fin 100))
             (JS.mul (JS.div (totalNegativeWeightedScore totals) (Fin (-13))) (Fin 100)))
          (Fin 0) (Fin 100)).
  { unfold rateSeller, normalizedPositiveScore, normalizedNegativeScore. cbn [fst].
    fold totals. by rewrite Hmax, Hmin. }
  split; [done|].
  rewrite Hscore, Hp, Hn.
  destruct (clamp_range
              (JS.sub (JS.mul (JS.div (Fin p) (Fin 65)) (Fin 100))
                      (JS.mul (JS.div (Fin n) (Fin (-13))) (Fin 100))) 0 100)
    as (q & -> & Hq1 & Hq2); [done|by vm_compute|].
  split; cbn; by apply Qle_bool_iff.
Qed.

Lemma rateSeller_score_in_range_witness :
  inRange0to100 (rateSeller (sellerAtCeilings (daysOnly (Fin 12)))).1.
Proof.
  refine (proj2 (proj2 (proj2
    (rateSeller_score_in_range (sellerAtCeilings (daysOnly (Fin 12)))
       (daysOnly (Fin 12)) eq_refl _)))).
  unfold noNaN. cbn. repeat constructor.
Defined.

(** C9: the record of the end-to-end example, whatever the other
    components of its duration, is rated 100 with no flag. *)
Theorem rateSeller_example (sec mins hrs mons yrs : number) :
  let stats :=
    sellerAtCeilings
      {| seconds := sec; minutes := mins; hours := hrs;
         days := Fin 730; months := mons; years := yrs |} in
  JS.eq (rateSeller stats).1 (Fin 100) = true /\ (rateSeller stats).2 = [].
Proof. by vm_compute. Qed.

Lemma lt_gt_excl (x y : number) : JS.lt x y = true -> JS.gt x y = false.
Proof.
  destruct x as [|a|p], y as [|b|q]; cbn; try done.
  - by destruct a, b.
  - by destruct a.
  - by destruct b.
  - rewrite Qlt_bool_true, Qlt_bool_false. apply Qlt_le_weak.
Qed.

(** The callback reads for each key the number the record holds for it. *)
Lemma recordNumber_entry (s : SellerStats) (key : StatKey) (x : number) :
  recordNumber s key = Some x ->
  exists value, (key, value) ∈ statsEntries s /\ entryNumber key value = x.
Proof.
  unfold statsEntries.
  destruct key; cbn [recordNumber];
    try (intros [= <-]; eexists (V_number _); split; [|reflexivity];
         apply elem_of_app; left;
         repeat first [apply list_elem_of_here | apply list_elem_of_further]).
  destruct (timeSinceCreation s) as [t|]; [|done].
  intros [= <-]. exists (V_time t). split; [|reflexivity].
  apply elem_of_app. right. apply list_elem_of_here.
Qed.

(** C7: for a key whose weight is positive and the number [x] the
    record holds for it, its flag is in the result exactly when [x]
    divided by the ceiling, times 100, is below 20, so not when it equals
    20; for a key whose weight is negative, exactly when it is above 65, or
    above 10 for [duplicateFeedbackPercentage], so not when it equals that
    threshold. *)
Theorem flag_thresholds (s : SellerStats) (key : StatKey) (x : number) :
  recordNumber s key = Some x ->
  let percent := JS.mul (JS.div x (max (factorValues key))) (Fin 100) in
  (JS.gt (weight (factorValues key)) (Fin 0) = true ->
     (factorFlags key ∈ (rateSeller s).2 <-> JS.lt percent (Fin 20) = true) /\
     (JS.eq percent (Fin 20) = true -> factorFlags key ∉ (rateSeller s).2)) /\
  (JS.lt (weight (factorValues key)) (Fin 0) = true ->
     (factorFlags key ∈ (rateSeller s).2 <->
        JS.gt percent (negativeThreshold key) = true) /\
     (JS.eq percent (negativeThreshold key) = true ->
        factorFlags key ∉ (rateSeller s).2)).
Proof.
  intros Hx percent.
  destruct (recordNumber_entry s key x Hx) as (value & Hin & <-).
  pose proof (flag_iff_raised s key value Hin) as Hflag.
  fold (normalizedValueAsPercent key (entryNumber key value)) in percent.
  split.
  - intros Hw.
    assert (Hr : flagRaised key (entryNumber key value) = JS.lt percent (Fin 20)).
    { unfold flagRaised. by rewrite Hw. }
    rewrite Hr in Hflag. split; [done|].
    intros Heq Hf. apply Hflag in Hf. by rewrite (lt_eq_excl _ _ Heq) in Hf.
  - intros Hw. apply lt_gt_excl in Hw.
    rewrite (flagRaised_negative key _ Hw) in Hflag. split; [done|].
    intros Heq Hf. apply Hflag in Hf. fold percent in Hf.
    by rewrite (gt_eq_excl _ _ Heq) in Hf.
Qed.

Lemma flag_thresholds_witness :
  NewAccount ∈ (rateSeller (sellerAtCeilings (daysOnly (Fin 12)))).2 /\
  (NewAccount ∉ (rateSeller (sellerAtCeilings (daysOnly (Fin 146)))).2) /\
  HighDuplicateFeedback ∈ (rateSeller sellerWithNothing).2.
Proof.
  split; [|split].
  - apply (proj1 (proj1 (flag_thresholds (sellerAtCeilings (daysOnly (Fin 12)))
                           K_timeSinceCreation (Fin 12) eq_refl) eq_refl)).
    reflexivity.
  - apply (proj2 (proj1 (flag_thresholds (sellerAtCeilings (daysOnly (Fin 146)))
                           K_timeSinceCreation (Fin 146) eq_refl) eq_refl)).
    reflexivity.
  - apply (proj1 (proj2 (flag_thresholds sellerWithNothing
                           K_duplicateFeedbackPercentage (Fin 50) eq_refl) eq_refl)).
    reflexivity.
Defined.

(** C10: when the record has no [timeSinceCreation], the positive
    ceiling sum is 58 and [NewAccount] is not flagged.  Setting the key
    is what makes the callback run once more, on the totals reached
    without it, and only then is the clamped share of the weight 7 added
    to the positive sum; with an age of 0 days the ceiling sum is then 65
    and [NewAccount] is flagged, so a missing date is not an age of 0. *)
Theorem absent_creation_date_skipped (s : SellerStats) :
  timeSinceCreation s = None ->
  maximumPositiveScore (rateSeller_totals s) = Fin 58 /\
  (NewAccount ∉ (rateSeller s).2) /\
  (forall t : TimeInfo,
     rateSeller_totals (set_timeSinceCreation t s) =
     visit (rateSeller_totals s) (K_timeSinceCreation, V_time t)) /\
  (forall t : TimeInfo,
     totalPositiveWeightedScore (rateSeller_totals (set_timeSinceCreation t s)) =
     JS.add (totalPositiveWeightedScore (rateSeller_totals s))
            (clamp (JS.mul (JS.div (days t) (Fin 730)) (Fin 7)) (Fin 0) (Fin 7))) /\
  (forall t : TimeInfo,
     days t = Fin 0 ->
     maximumPositiveScore (rateSeller_totals (set_timeSinceCreation t s)) = Fin 65 /\
     NewAccount ∈ (rateSeller (set_timeSinceCreation t s)).2).
Proof.
  intros Hnone.
  assert (Hstep : forall t : TimeInfo,
     rateSeller_totals (set_timeSinceCreation t s) =
     visit (rateSeller_totals s) (K_timeSinceCreation, V_time t)).
  { intros t. unfold rateSeller_totals, statsEntries. rewrite Hnone.
    cbn [set_timeSinceCreation timeSinceCreation activeItems soldItems
         cheapItemsPercentage averageImageCount averageDescriptionLength
         acceptReturnsPercentage sellerPaysReturnsPercentage freePostagePercentage
         feedbackCount positiveFeedbackPercentage duplicateFeedbackPercentage].
    by rewrite app_nil_r, foldl_app. }
  split; [by apply ceilings_without_time|].
  split; [|split; [done|split; [by intros t; rewrite Hstep|]]].
  - unfold rateSeller. cbn [snd]. unfold rateSeller_totals.
    rewrite flags_foldl. intros [H|(k & v & Hin & Hf & _)].
    + by apply elem_of_nil in H.
    + apply (factorFlags_inj k K_timeSinceCreation) in Hf as ->.
      assert (Hk : K_timeSinceCreation ∈ (statsEntries s).*1).
      { apply list_elem_of_fmap. by exists (K_timeSinceCreation, v). }
      revert Hk. unfold statsEntries. rewrite Hnone. cbn.
      by apply (bool_decide_unpack _); vm_compute.
  - intros t Hdays. split.
    + by apply (ceilings_full _ t).
    + apply (flag_iff_raised _ K_timeSinceCreation (V_time t)).
      * unfold statsEntries. cbn [set_timeSinceCreation timeSinceCreation].
        apply elem_of_app. right. apply list_elem_of_here.
      * unfold flagRaised, normalizedValueAsPercent, entryNumber.
        cbn [decide]. rewrite decide_True by done. by rewrite Hdays.
Qed.

Lemma absent_creation_date_skipped_witness :
  maximumPositiveScore (rateSeller_totals initialSellerStats) = Fin 58 /\
  (NewAccount ∉ (rateSeller initialSellerStats).2).
Proof.
  pose proof (absent_creation_date_skipped initialSellerStats eq_refl) as H.
  exact (conj (proj1 H) (proj1 (proj2 H))).
Defined.

End RaterClaims.

(** ** The scan of the feedback rows *)

Section ScanFacts.

Implicit Types (st : FeedbackState) (row : FeedbackRow)
               (P : gset (string * option string)).

Lemma feedbackTask_skip st row : counted row = None -> feedbackTask st row = st.
Proof.
  destruct st as [m n]. unfold counted, feedbackTask.
  destruct (trim <$> card__comment row) as [c|]; [|done].
  destruct (bool_decide (c = EmptyString)); [done|].
  by destruct (Nat.ltb (String.length c) 15).
Qed.

Lemma feedbackTask_counted (m : gmap string (list (option string))) (n : nat)
      row (c : string) (u : option string) :
  counted row = Some (c, u) ->
  feedbackTask (m, n) row =
  match m !! c with
  | None => (<[c := [u]]> m, n)
  | Some users =>
      if bool_decide (u ∈ users) then (m, n)
      else (<[c := users ++ [u]]> m,
            if Nat.ltb 1 (length (users ++ [u])) then S n else n)
  end.
Proof.
  unfold counted, feedbackTask.
  destruct (trim <$> card__comment row) as [c'|]; [|done].
  destruct (bool_decide (c' = EmptyString)); [done|].
  destruct (Nat.ltb (String.length c') 15); [done|].
  by intros [= -> ->].
Qed.

(** A counted row keeps the invariant, for the pairs with its own. *)
Lemma feedbackTask_invariant st P row (c : string) (u : option string) :
  counted row = Some (c, u) ->
  scanInvariant st P ->
  scanInvariant (feedbackTask st row) ({[ (c, u) ]} ∪ P).
Proof.
  destruct st as [m n]. intros Hc (Hp & Hne & Hsz). cbn [fst snd] in *.
  rewrite (feedbackTask_counted m n row c u Hc).
  destruct (m !! c) as [users|] eqn:Hm.
  - destruct (bool_decide (u ∈ users)) eqn:Hu.
    + apply bool_decide_eq_true in Hu.
      assert (Hin : (c, u) ∈ P) by (apply Hp; eauto).
      replace ({[ (c, u) ]} ∪ P) with P by set_solver.
      done.
    + apply bool_decide_eq_false in Hu.
      assert (Hnin : (c, u) ∉ P).
      { intros (us & Hus & Hin)%Hp. congruence. }
      assert (Hlen : Nat.ltb 1 (length (users ++ [u])) = true).
      { apply Nat.ltb_lt. rewrite length_app. cbn.
        specialize (Hne c users Hm). destruct users; [done|cbn; lia]. }
      rewrite Hlen. split; [|split]; cbn [fst snd].
      * intros c' u'. rewrite elem_of_union, elem_of_singleton, Hp.
        destruct (decide (c' = c)) as [->|Hcc].
        -- rewrite lookup_insert_eq. split.
           ++ intros [[= ->]|(us & Hus & Hin)].
              ** eexists. split; [done|]. apply elem_of_app. right.
                 by apply list_elem_of_singleton.
              ** eexists. split; [done|]. apply elem_of_app. left. congruence.
           ++ intros (us & [= <-] & [Hin| ->%list_elem_of_singleton]%elem_of_app).
              ** right. eauto.
              ** by left.
        -- rewrite lookup_insert_ne by done. split.
           ++ intros [[= -> ->]|H]; done.
           ++ intros H. by right.
      * intros c' us. destruct (decide (c' = c)) as [->|Hcc].
        -- rewrite lookup_insert_eq. intros [= <-]. by destruct users.
        -- rewrite lookup_insert_ne by done. apply Hne.
      * rewrite dom_insert_L.
        replace ({[c]} ∪ dom m) with (dom m).
        2:{ assert (c ∈ dom m) by (apply elem_of_dom; eauto). set_solver. }
        rewrite size_union by set_solver. rewrite size_singleton. lia.
  - assert (Hnin : (c, u) ∉ P).
    { intros (us & Hus & Hin)%Hp. congruence. }
    split; [|split]; cbn [fst snd].
    + intros c' u'. rewrite elem_of_union, elem_of_singleton, Hp.
      destruct (decide (c' = c)) as [->|Hcc].
      * rewrite lookup_insert_eq. split.
        -- intros [[= ->]|(us & Hus & Hin)]; [|congruence].
           eexists. split; [done|]. by apply list_elem_of_singleton.
        -- intros (us & [= <-] & ->%list_elem_of_singleton). by left.
      * rewrite lookup_insert_ne by done. split.
        -- intros [[= -> ->]|H]; done.
        -- intros H. by right.
    + intros c' us. destruct (decide (c' = c)) as [->|Hcc].
      * rewrite lookup_insert_eq. by intros [= <-].
      * rewrite lookup_insert_ne by done. apply Hne.
    + rewrite dom_insert_L.
      assert (c ∉ dom m) by (by apply not_elem_of_dom).
      rewrite !size_union by set_solver. rewrite !size_singleton. lia.
Qed.

Lemma foldl_feedbackTask_invariant (rows : list FeedbackRow) st P :
  scanInvariant st P ->
  scanInvariant (foldl feedbackTask st rows) (list_to_set (omap counted rows) ∪ P).
Proof.
  revert st P. induction rows as [|row rows IH]; intros st P Hinv; cbn [foldl].
  - cbn. by replace (∅ ∪ P) with P by set_solver.
  - assert (Ho : omap counted (row :: rows) =
                 match counted row with
                 | Some x => x :: omap counted rows
                 | None => omap counted rows
                 end) by done.
    rewrite Ho. clear Ho.
    destruct (counted row) as [[c u]|] eqn:Hc.
    + rewrite list_to_set_cons.
      replace ({[ (c, u) ]} ∪ list_to_set (omap counted rows) ∪ P)
        with (list_to_set (omap counted rows) ∪ ({[ (c, u) ]} ∪ P)) by set_solver.
      apply IH. by apply feedbackTask_invariant.
    + rewrite feedbackTask_skip by done. by apply IH.
Qed.

(** The invariant holds at the end of the scan. *)
Lemma scanFeedback_invariant (rows : list FeedbackRow) :
  scanInvariant (scanFeedback rows) (said rows).
Proof.
  unfold scanFeedback, said.
  replace (list_to_set (omap counted rows) : gset _)
    with (list_to_set (omap counted rows) ∪ (∅ : gset (string * option string)))
    by set_solver.
  apply foldl_feedbackTask_invariant.
  split; [|split]; cbn.
  - intros c u. split; [set_solver|]. intros (us & Hus & _).
    by rewrite lookup_empty in Hus.
  - intros c us Hus. by rewrite lookup_empty in Hus.
  - by rewrite dom_empty_L, !size_empty.
Qed.

Lemma scanInvariant_dom st P : scanInvariant st P -> dom st.1 = set_map fst P.
Proof.
  intros (Hp & Hne & _). apply set_eq. intros c.
  rewrite elem_of_dom, elem_of_map. split.
  - intros [us Hus]. specialize (Hne c us Hus).
    destruct us as [|u us]; [done|].
    exists (c, u). split; [done|]. apply Hp. exists (u :: us). split; [done|].
    apply list_elem_of_here.
  - intros ([c' u] & -> & (us & Hus & _)%Hp). by exists us.
Qed.

(** The final count is the number of distinct pairs of comment and
    user less the number of distinct comments. *)
Lemma scanFeedback_count (rows : list FeedbackRow) :
  (scanFeedback rows).2 + size (comments rows) = size (said rows).
Proof.
  pose proof (scanFeedback_invariant rows) as Hinv.
  unfold comments. rewrite <- (scanInvariant_dom _ _ Hinv).
  by destruct Hinv as (_ & _ & Hsz).
Qed.

Lemma said_Permutation (rows1 rows2 : list FeedbackRow) :
  rows1 ≡ₚ rows2 -> said rows1 = said rows2.
Proof. intros H. unfold said. by rewrite H. Qed.

(** The count does not depend on the order of the rows. *)
Lemma scanFeedback_Permutation (rows1 rows2 : list FeedbackRow) :
  rows1 ≡ₚ rows2 -> (scanFeedback rows1).2 = (scanFeedback rows2).2.
Proof.
  intros H.
  pose proof (scanFeedback_count rows1) as H1.
  pose proof (scanFeedback_count rows2) as H2.
  unfold comments in *. rewrite (said_Permutation _ _ H) in H1. lia.
Qed.

End ScanFacts.

(** ** Claims on the duplicate feedback *)

Section FeedbackClaims.

(** A map that is injective on a set keeps its size. *)
Lemma size_set_map_inj_on {A B : Type} `{Countable A, Countable B}
      (f : A -> B) (X : gset A) :
  (forall x y, x ∈ X -> y ∈ X -> f x = f y -> x = y) ->
  size (set_map f X : gset B) = size X.
Proof.
  induction X as [|x X Hx IH] using set_ind_L; intros Hinj.
  - by rewrite set_map_empty, !size_empty.
  - rewrite set_map_union_L, set_map_singleton_L.
    assert (Hfx : f x ∉ (set_map f X : gset B)).
    { intros (y & Hy & Hin)%elem_of_map.
      assert (x = y) as -> by (apply Hinj; set_solver). done. }
    rewrite !size_union by set_solver. rewrite !size_singleton, IH; [done|].
    intros y z Hy Hz. apply Hinj; set_solver.
Qed.

Lemma elem_of_said (rows : list FeedbackRow) (p : string * option string) :
  p ∈ said rows <-> exists row, row ∈ rows /\ counted row = Some p.
Proof. unfold said. by rewrite elem_of_list_to_set, list_elem_of_omap. Qed.

(** Leaving out the rows of a comment leaves out its pairs. *)
Lemma said_without (comment : string) (rows : list FeedbackRow) :
  said (without comment rows) = filter (fun p => ¬ p.1 = comment) (said rows).
Proof.
  apply set_eq. intros [c u].
  rewrite elem_of_filter, !elem_of_said. unfold without. split.
  - intros (row & [Hne Hin]%list_elem_of_filter & Hc).
    split; [|by exists row]. rewrite Hc in Hne. cbn in *. congruence.
  - intros [Hne (row & Hin & Hc)]. exists row. split; [|done].
    apply list_elem_of_filter. split; [|done]. rewrite Hc. cbn in *. congruence.
Qed.

(** C3, as stated, fails: with one comment of 27 characters from three
    different users, followed by a repeat of the first, the comment adds
    2 to the count, not at most 1. *)
Lemma third_reviewer_counts :
  (scanFeedback threeReviewers).2 = 2 /\
  contribution "Great seller, fast delivery" threeReviewers = 2 /\
  ~ contribution "Great seller, fast delivery" threeReviewers <= 1.
Proof.
  assert (H : contribution "Great seller, fast delivery" threeReviewers = 2)
    by (by vm_compute).
  split; [by vm_compute|]. split; [done|]. rewrite H. lia.
Qed.

(** C3, amended: whatever the rows and the order in which they are
    scanned, a comment adds to the count the number of distinct users
    that said it less one (nothing when no counted row has it): every
    further distinct user increments the count, a repeat from a user
    already stored does not.  A comment of fewer than 15 characters has
    no counted row. *)
Theorem contribution_distinct_reviewers (comment : string) (rows : list FeedbackRow) :
  contribution comment rows = size (reviewers comment rows) - 1 /\
  (String.length comment < 15 -> reviewers comment rows = ∅).
Proof.
  split.
  - unfold contribution.
    pose proof (scanFeedback_count rows) as H1.
    pose proof (scanFeedback_count (without comment rows)) as H2.
    unfold comments in H1, H2. rewrite said_without in H2.
    set (S := said rows) in *.
    set (A := filter (fun p : string * option string => p.1 = comment) S).
    set (B := filter (fun p : string * option string => ¬ p.1 = comment) S) in *.
    assert (HS : S = A ∪ B) by (subst A B; symmetry; apply (filter_union_complement_L _ S S)).
    assert (Hdisj : A ## B) by apply disjoint_filter_complement.
    assert (HsizeS : size S = size A + size B) by (rewrite HS; by apply size_union).
    assert (Hrev : size (reviewers comment rows) = size A).
    { unfold reviewers. fold S. fold A. apply size_set_map_inj_on.
      intros [c1 u1] [c2 u2] [E1 _]%elem_of_filter [E2 _]%elem_of_filter.
      cbn in *. congruence. }
    assert (HfstA : size (set_map fst A : gset string) = if decide (A = ∅) then 0 else 1).
    { destruct (decide (A = ∅)) as [->|Hne].
      - by rewrite set_map_empty, size_empty.
      - replace (set_map fst A : gset string) with ({[ comment ]} : gset string);
          [by rewrite size_singleton|].
        apply set_eq. intros c. rewrite elem_of_singleton, elem_of_map. split.
        + intros ->. apply set_choose_L in Hne as [[c u] Hin].
          exists (c, u). split; [|done].
          apply elem_of_filter in Hin as [E _]. by cbn in E.
        + intros ([c' u] & -> & [E _]%elem_of_filter). by cbn in E. }
    assert (Hfst : size (set_map fst S : gset string) =
                   size (set_map fst A : gset string) + size (set_map fst B : gset string)).
    { rewrite HS at 1. rewrite set_map_union_L. apply size_union.
      intros c ([c1 u1] & -> & [E1 _]%elem_of_filter)%elem_of_map
               ([c2 u2] & E & [E2 _]%elem_of_filter)%elem_of_map.
      cbn in *. congruence. }
    rewrite Hrev. rewrite Hfst, HfstA in H1.
    destruct (decide (A = ∅)) as [HA|HA].
    + rewrite HA, size_empty in *. lia.
    + assert (size A ≠ 0).
      { intros Hz. apply size_empty_inv in Hz. apply HA. by apply leibniz_equiv. }
      lia.
  - intros Hlen. unfold reviewers.
    replace (filter (fun p : string * option string => p.1 = comment) (said rows))
      with (∅ : gset (string * option string)); [by rewrite set_map_empty|].
    symmetry. apply set_eq. intros [c u]. split; [|set_solver].
    intros [E (row & _ & Hc)%elem_of_said]%elem_of_filter. cbn in E. subst c.
    exfalso. revert Hc. unfold counted.
    destruct (trim <$> card__comment row) as [c'|]; [|done].
    destruct (bool_decide (c' = EmptyString)); [done|].
    destruct (Nat.ltb (String.length c') 15) eqn:El; [done|].
    intros [= -> _]. apply Nat.ltb_ge in El. lia.
Qed.

Lemma contribution_distinct_reviewers_witness :
  reviewers "Too short" threeReviewers = ∅.
Proof.
  apply (proj2 (contribution_distinct_reviewers "Too short" threeReviewers)).
  cbn. lia.
Defined.

(** C8: the method returns a value, and whatever the order in which
    the tasks of the remaining rows complete, it is the same value. *)
Theorem duplicate_feedback_order_independent (feedbackContainers : list FeedbackRow) :
  exists result,
    findDuplicateFeedbackPercentage feedbackContainers result /\
    forall result',
      findDuplicateFeedbackPercentage feedbackContainers result' -> result' = result.
Proof.
  exists (findDuplicateFeedbackPercentage_in (tail feedbackContainers) feedbackContainers).
  split.
  - by constructor.
  - intros result' [order Horder].
    unfold findDuplicateFeedbackPercentage_in.
    by rewrite (scanFeedback_Permutation _ _ Horder).
Qed.

Lemma duplicate_feedback_order_independent_witness :
  exists result,
    findDuplicateFeedbackPercentage threeReviewers result /\
    forall result',
      findDuplicateFeedbackPercentage threeReviewers result' -> result' = result.
Proof. exact (duplicate_feedback_order_independent threeReviewers). Defined.

End FeedbackClaims.

(** ** Claims on the aggregation *)

Section AggregationClaims.

Lemma length_tail {A : Type} (l : list A) : length (tail l) = length l - 1.
Proof. destruct l; cbn; lia. Qed.

(** With no link left after the honeypot, the five fields that
    [browseItemDetails] computes are 0: each of its divisions is followed
    by [|| 0]. *)
Lemma browseItemDetails_no_items (itemLinks : list ItemLink) (sellerStats : SellerStats) :
  length itemLinks <= 1 ->
  let result := browseItemDetails itemLinks sellerStats in
  result.2 = JS.Normal tt /\
  activeItems result.1 = Fin 0 /\
  averageImageCount result.1 = Fin 0 /\
  averageDescriptionLength result.1 = Fin 0 /\
  freePostagePercentage result.1 = Fin 0 /\
  acceptReturnsPercentage result.1 = Fin 0 /\
  sellerPaysReturnsPercentage result.1 = Fin 0.
Proof.
  intros Hlen.
  assert (Ht : tail itemLinks = []).
  { destruct itemLinks as [|? [|? ?]]; cbn in *; [done|done|lia]. }
  unfold browseItemDetails. rewrite Ht. by cbn.
Qed.

(** C2, where the code departs from it: with no price element left
    after the honeypot, [getCheapItemsPercentage] stores [NaN], and with
    no feedback row left [findDuplicateFeedbackPercentage] returns [NaN];
    neither division is followed by [|| 0]. *)
Theorem zero_denominator_not_guarded
    (parseFloat : string -> number) (honeypot : option string)
    (sellerStats : SellerStats) (decoy : FeedbackRow) :
  cheapItemsPercentage (getCheapItemsPercentage parseFloat [honeypot] sellerStats) = NaN /\
  cheapItemsPercentage (getCheapItemsPercentage parseFloat [] sellerStats) = NaN /\
  findDuplicateFeedbackPercentage [decoy] NaN /\
  findDuplicateFeedbackPercentage [] NaN.
Proof.
  split; [done|]. split; [done|]. split.
  - by apply (findDuplicateFeedbackPercentage_order [decoy] []).
  - by apply (findDuplicateFeedbackPercentage_order [] []).
Qed.

(** Returns text that begins with [No]: no returns, whatever follows. *)
Lemma getReturnDetails_No (itemPage : ItemPage) (text : string) :
  returnInfoDiv itemPage = Some text ->
  startsWith text "No" = true ->
  getReturnDetails itemPage = JS.Normal {| returnAllowed := false; sellerPays := false |}.
Proof. intros Ht Hno. unfold getReturnDetails. rewrite Ht. cbn. by rewrite Hno. Qed.

(** Returns text with a second sentence: returns are allowed, and the
    seller pays when that sentence, trimmed, begins with [Seller]. *)
Lemma getReturnDetails_second_sentence (itemPage : ItemPage) (text sentence : string) :
  returnInfoDiv itemPage = Some text ->
  startsWith text "No" = false ->
  split "." text !! 1 = Some sentence ->
  getReturnDetails itemPage =
  JS.Normal {| returnAllowed := true;
               sellerPays := startsWith (trim sentence) "Seller" |}.
Proof.
  intros Ht Hno Hs. unfold getReturnDetails, sellerPaysOf. rewrite Ht. cbn.
  by rewrite Hno, Hs.
Qed.

(** Returns text without a full stop: the call throws. *)
Lemma getReturnDetails_one_sentence (itemPage : ItemPage) (text : string) :
  returnInfoDiv itemPage = Some text ->
  startsWith text "No" = false ->
  split "." text !! 1 = None ->
  getReturnDetails itemPage = JS.Throw_TypeError.
Proof.
  intros Ht Hno Hs. unfold getReturnDetails, sellerPaysOf. rewrite Ht. cbn.
  by rewrite Hno, Hs.
Qed.

(** C4, where the code departs from it: on the returns text
    [Returns accepted], which has no full stop, [getReturnDetails] throws
    a [TypeError], and so does [browseItemDetails]; when the returns
    element is absent the result allows returns. *)
Theorem getReturnDetails_failing_inputs (description : option string) :
  getReturnDetails (itemPageWith description (Some "Returns accepted"%string))
    = JS.Throw_TypeError /\
  (browseItemDetails
     [LinkFails; LinkLoads (itemPageWith description (Some "Returns accepted"%string))]
     initialSellerStats).2 = JS.Throw_TypeError /\
  getReturnDetails (itemPageWith description None)
    = JS.Normal {| returnAllowed := true; sellerPays := false |}.
Proof. by vm_compute. Qed.

(** Once the sum of the description lengths is [NaN] it stays so. *)
Lemma sampleItems_NaN (itemLinks : list ItemLink) (t t' : ItemTotals) :
  sampleItems t itemLinks = JS.Normal t' ->
  totalDescriptionLength t = NaN ->
  totalDescriptionLength t' = NaN.
Proof.
  revert t. induction itemLinks as [|linkTag rest IH]; intros t; cbn [sampleItems].
  - by intros [= <-].
  - destruct (sampleItem t linkTag) as [t1|] eqn:E; [|done].
    intros Hrest Hnan. apply (IH t1 Hrest).
    destruct linkTag as [itemPage|]; cbn in E.
    + destruct (getReturnDetails itemPage); [|done].
      injection E as <-. cbn. by rewrite Hnan.
    + by injection E as <-.
Qed.

(** A loaded item without description makes the sum [NaN]. *)
Lemma sampleItems_missing_description
      (itemLinks : list ItemLink) (t t' : ItemTotals) (itemPage : ItemPage) :
  sampleItems t itemLinks = JS.Normal t' ->
  LinkLoads itemPage ∈ itemLinks ->
  getItemDescriptionLength itemPage = None ->
  totalDescriptionLength t' = NaN.
Proof.
  revert t. induction itemLinks as [|linkTag rest IH]; intros t; cbn [sampleItems].
  - intros _ Hin. by apply elem_of_nil in Hin.
  - destruct (sampleItem t linkTag) as [t1|] eqn:E; [|done].
    intros Hrest [<-|Hin]%elem_of_cons Hnone.
    + apply (sampleItems_NaN rest t1 t' Hrest).
      cbn in E. destruct (getReturnDetails itemPage); [|done].
      injection E as <-. cbn. rewrite Hnone. cbn.
      by destruct (totalDescriptionLength t).
    + by apply (IH t1).
Qed.

(** In a run that completes, one sampled item without description
    makes [averageDescriptionLength] 0, whatever the other items. *)
Lemma missing_description_zeroes_average
      (itemLinks : list ItemLink) (sellerStats : SellerStats) (itemPage : ItemPage) :
  LinkLoads itemPage ∈ tail itemLinks ->
  getItemDescriptionLength itemPage = None ->
  (browseItemDetails itemLinks sellerStats).2 = JS.Normal tt ->
  averageDescriptionLength (browseItemDetails itemLinks sellerStats).1 = Fin 0.
Proof.
  intros Hin Hnone. unfold browseItemDetails.
  destruct (sampleItems noItems (tail itemLinks)) as [t|] eqn:E; [|done].
  intros _. cbn.
  by rewrite (sampleItems_missing_description _ _ _ _ E Hin Hnone).
Qed.

(** C5, where the code departs from it: of two sampled items, one with
    a description of ten characters and one without description frame,
    the run completes with [activeItems] 2 and [averageDescriptionLength]
    0, not 5; the missing length is [undefined] and the sum becomes
    [NaN].  Without the second item the average is 10. *)
Theorem missing_description_poisons_sum :
  let result := browseItemDetails describedAndUndescribed initialSellerStats in
  result.2 = JS.Normal tt /\
  JS.eq (activeItems result.1) (Fin 2) = true /\
  getItemDescriptionLength
    (itemPageWithoutFrame (Some "30 days returns. Seller pays."%string)) = None /\
  averageDescriptionLength result.1 = Fin 0 /\
  JS.eq (averageDescriptionLength
           (browseItemDetails (take 2 describedAndUndescribed) initialSellerStats).1)
        (Fin 10) = true.
Proof. by vm_compute. Qed.

(** C6: when there is at least one link, [activeItems] is the number
    of links less one, however the call completes; when there is at least
    one feedback row, the returned value is the count divided by the
    number of rows less one, times 100. *)
Theorem decoy_discard
    (itemLinks : list ItemLink) (sellerStats : SellerStats)
    (completionOrder feedbackContainers : list FeedbackRow) :
  1 <= length itemLinks ->
  1 <= length feedbackContainers ->
  activeItems (browseItemDetails itemLinks sellerStats).1
    = JS.of_nat (length itemLinks - 1) /\
  findDuplicateFeedbackPercentage_in completionOrder feedbackContainers
    = JS.mul (JS.div (JS.of_nat (scanFeedback completionOrder).2)
                     (JS.of_nat (length feedbackContainers - 1)))
             (Fin 100).
Proof.
  intros _ _. split.
  - unfold browseItemDetails. rewrite <- length_tail.
    by destruct (sampleItems noItems (tail itemLinks)).
  - unfold findDuplicateFeedbackPercentage_in. by rewrite length_tail.
Qed.

Lemma decoy_discard_witness :
  activeItems (browseItemDetails describedAndUndescribed initialSellerStats).1
    = JS.of_nat 2 /\
  findDuplicateFeedbackPercentage_in (tail threeReviewers) threeReviewers
    = JS.mul (JS.div (JS.of_nat (scanFeedback (tail threeReviewers)).2) (JS.of_nat 3))
             (Fin 100).
Proof.
  apply (decoy_discard describedAndUndescribed initialSellerStats
           (tail threeReviewers) threeReviewers); cbn; lia.
Defined.

End AggregationClaims.

(** ** The elapsed time *)

Section DateFacts.

Local Open Scope Z_scope.

(** The floor of an integer divided by a positive integer literal. *)
Lemma floor_div_integer (z : Z) (d : positive) :
  Math_floor (JS.div (Fin (inject_Z z)) (Fin (inject_Z (Zpos d))))
  = Fin (inject_Z (z / Zpos d)).
Proof.
  cbn. unfold Qfloor, Qdiv, Qmult, Qinv. cbn.
  by rewrite Z.mul_1_r.
Qed.

(** The components of an elapsed time of [ms] milliseconds, an integer
    of either sign. *)
Lemma getTimeInfo_floors (ms : Z) :
  getTimeInfo (Fin (inject_Z ms)) =
  {| seconds := Fin (inject_Z (ms / 1000));
     minutes := Fin (inject_Z (ms / 60000));
     hours := Fin (inject_Z (ms / 3600000));
     days := Fin (inject_Z (ms / 86400000));
     months := Fin (inject_Z (ms / 2592000000));
     years := Fin (inject_Z (ms / 31104000000)) |}.
Proof.
  unfold getTimeInfo.
  change (Fin 1000) with (Fin (inject_Z 1000)).
  change (Fin 60) with (Fin (inject_Z 60)).
  change (Fin 24) with (Fin (inject_Z 24)).
  change (Fin 30) with (Fin (inject_Z 30)).
  change (Fin 12) with (Fin (inject_Z 12)).
  rewrite !floor_div_integer.
  rewrite !Z.div_div by lia.
  reflexivity.
Qed.

(** X1: for two time values in whole milliseconds, the components of the
    time since [date] are the floors of the difference divided by 1000,
    60000, 3600000, 86400000 (a day), 2592000000 (30 days) and 31104000000
    (360 days): flooring at every step loses nothing against flooring once,
    also when the date lies ahead and the difference is negative. *)
Theorem getTimeSince_floors (currentTime date : Z) :
  getTimeSince (Fin (inject_Z currentTime)) (Fin (inject_Z date)) =
  {| seconds := Fin (inject_Z ((currentTime - date) / 1000));
     minutes := Fin (inject_Z ((currentTime - date) / 60000));
     hours := Fin (inject_Z ((currentTime - date) / 3600000));
     days := Fin (inject_Z ((currentTime - date) / 86400000));
     months := Fin (inject_Z ((currentTime - date) / 2592000000));
     years := Fin (inject_Z ((currentTime - date) / 31104000000)) |}.
Proof.
  unfold getTimeSince.
  change (JS.sub (Fin (inject_Z currentTime)) (Fin (inject_Z date)))
    with (Fin (inject_Z (currentTime * 1 + - date * 1))).
  rewrite getTimeInfo_floors.
  by replace (currentTime * 1 + - date * 1) with (currentTime - date) by lia.
Qed.

End DateFacts.

(** ** Splitting text *)

Section TextFacts.

Lemma split_nonempty (sep : Ascii.ascii) (s : string) :
  exists piece pieces, split sep s = piece :: pieces.
Proof.
  induction s as [|c rest IH]; cbn.
  - by eexists _, _.
  - destruct (Ascii.eqb c sep); [by eexists _, _|].
    destruct IH as (piece & pieces & ->). by eexists _, _.
Qed.

(** There is a second piece exactly when the separator occurs. *)
Lemma split_second (sep : Ascii.ascii) (s : string) :
  split sep s !! 1 = None <-> occurs sep s = false.
Proof.
  induction s as [|c rest IH]; cbn.
  - done.
  - destruct (Ascii.eqb c sep); cbn.
    + destruct (split_nonempty sep rest) as (piece & pieces & ->). cbn. split; done.
    + destruct (split_nonempty sep rest) as (piece & pieces & E).
      rewrite E in IH |- *. exact IH.
Qed.

Lemma split_no_separator (sep : Ascii.ascii) (s : string) :
  occurs sep s = false -> split sep s = [s].
Proof.
  induction s as [|c rest IH]; cbn; [done|].
  destruct (Ascii.eqb c sep); cbn; [done|].
  intros H. by rewrite (IH H).
Qed.

(** The pieces of a text with a separator in the middle are the pieces
    before it followed by the pieces after it. *)
Lemma split_append (sep : Ascii.ascii) (before after : string) :
  split sep (String.append before (String sep after))
  = split sep before ++ split sep after.
Proof.
  induction before as [|c rest IH].
  - change (split sep (String sep after) = [EmptyString] ++ split sep after).
    cbn [split]. by rewrite Ascii.eqb_refl.
  - change (split sep (String c (String.append rest (String sep after)))
            = split sep (String c rest) ++ split sep after).
    cbn [split]. destruct (Ascii.eqb c sep).
    + by rewrite IH.
    + rewrite IH.
      by destruct (split_nonempty sep rest) as (piece & pieces & ->).
Qed.

Lemma length_append_one (s : string) (c : Ascii.ascii) :
  String.length (String.append s (String c EmptyString)) = S (String.length s).
Proof.
  induction s as [|c' rest IH]; [done|].
  change (S (String.length (String.append rest (String c EmptyString)))
          = S (S (String.length rest))).
  by rewrite IH.
Qed.

Lemma substring_prefix (s t : string) :
  String.substring 0 (String.length s) (String.append s t) = s.
Proof.
  induction s as [|c' rest IH].
  - by destruct t.
  - change (String c' (String.substring 0 (String.length rest) (String.append rest t))
            = String c' rest).
    by rewrite IH.
Qed.

Lemma sliceButLast_append (s : string) (c : Ascii.ascii) :
  sliceButLast (String.append s (String c EmptyString)) = s.
Proof.
  unfold sliceButLast. rewrite length_append_one.
  replace (S (String.length s) - 1) with (String.length s) by lia.
  apply substring_prefix.
Qed.

End TextFacts.

(** ** Reading an item page and the feedback summary *)

Section ItemFacts.

(** X2: [getReturnDetails] throws exactly when the returns element is
    there and its text neither begins with [No] nor contains a full stop;
    in every other case it returns. *)
Theorem getReturnDetails_throws_iff (itemPage : ItemPage) :
  getReturnDetails itemPage = JS.Throw_TypeError <->
  exists text,
    returnInfoDiv itemPage = Some text /\
    startsWith text "No" = false /\
    occurs "." text = false.
Proof.
  unfold getReturnDetails, sellerPaysOf.
  destruct (returnInfoDiv itemPage) as [text|]; cbn.
  - destruct (startsWith text "No") eqn:Hno.
    + split; [done|]. intros (t & [= <-] & H & _). congruence.
    + destruct (split "." text !! 1) as [sentence|] eqn:Hs.
      * split; [done|]. intros (t & [= <-] & _ & Hocc).
        apply split_second in Hocc. congruence.
      * split; [|done]. intros _. exists text.
        split; [done|]. split; [done|]. by apply split_second.
  - split; [done|]. by intros (t & H & _).
Qed.

Lemma isFree_allowsPostage (itemPage : ItemPage) :
  isFree (getPostageDetails itemPage) = true ->
  allowsPostage (getPostageDetails itemPage) = true.
Proof. unfold getPostageDetails. by destruct (postagePrice itemPage). Qed.

Lemma sellerPays_returnAllowed (itemPage : ItemPage) (returnDetails : ReturnDetails) :
  getReturnDetails itemPage = JS.Normal returnDetails ->
  sellerPays returnDetails = true -> returnAllowed returnDetails = true.
Proof.
  unfold getReturnDetails.
  destruct (default false _); [by intros [= <-]|].
  destruct (sellerPaysOf (returnInfoDiv itemPage)); [|done].
  by intros [= <-].
Qed.

(** X3: what the two readers never report: free postage on an item that
    does not post, or returns paid by the seller on an item that takes no
    returns. *)
Theorem details_consistent (itemPage : ItemPage) :
  (isFree (getPostageDetails itemPage) = true ->
   allowsPostage (getPostageDetails itemPage) = true) /\
  (forall returnDetails,
     getReturnDetails itemPage = JS.Normal returnDetails ->
     sellerPays returnDetails = true -> returnAllowed returnDetails = true).
Proof.
  split; [apply isFree_allowsPostage | apply sellerPays_returnAllowed].
Qed.

Lemma details_consistent_witness :
  allowsPostage (getPostageDetails (itemPageWith None None)) = true.
Proof.
  apply (proj1 (details_consistent (itemPageWith None None))). reflexivity.
Defined.

End ItemFacts.

Section FeedbackSummaryFacts.

Variable Number_of_string : string -> number.

(** X4: [getPositiveFeedbackPercentage] throws exactly when the summary
    element is missing. *)
Theorem getPositiveFeedbackPercentage_throws_iff (feedbackPage : FeedbackPage) :
  getPositiveFeedbackPercentage Number_of_string feedbackPage = JS.Throw_TypeError <->
  positiveFeedbackText feedbackPage = None.
Proof.
  unfold getPositiveFeedbackPercentage.
  destruct (positiveFeedbackText feedbackPage) as [text|]; [|done].
  destruct (split_nonempty " " text) as (piece & pieces & ->).
  split; [|done].
  destruct ((piece :: pieces) !! (length (piece :: pieces) - 1)) eqn:E; [done|].
  apply lookup_ge_None in E. cbn in E. lia.
Qed.

(** X5: on a summary that ends in a space, a word without spaces and one
    more character, such as a per cent sign, the value is what [Number]
    makes of that word, whatever comes before. *)
Theorem getPositiveFeedbackPercentage_last_word
    (feedbackPage : FeedbackPage) (before word : string) (sign : Ascii.ascii) :
  positiveFeedbackText feedbackPage
    = Some (String.append before
              (String " " (String.append word (String sign EmptyString)))) ->
  occurs " " word = false ->
  Ascii.eqb sign " " = false ->
  getPositiveFeedbackPercentage Number_of_string feedbackPage
    = JS.Normal (Number_of_string word).
Proof.
  intros Htext Hword Hsign. unfold getPositiveFeedbackPercentage. rewrite Htext.
  rewrite split_append.
  assert (Hlast : occurs " " (String.append word (String sign EmptyString)) = false).
  { clear Htext. induction word as [|c rest IH].
    - change (Ascii.eqb sign " " || false = false). by rewrite Hsign.
    - change (Ascii.eqb c " " || occurs " " rest = false) in Hword.
      apply orb_false_iff in Hword as [Hc Hrest].
      change (Ascii.eqb c " "
              || occurs " " (String.append rest (String sign EmptyString)) = false).
      by rewrite Hc, (IH Hrest). }
  rewrite (split_no_separator _ _ Hlast).
  rewrite length_app. cbn [length].
  replace (length (split " " before) + 1 - 1) with (length (split " " before) + 0) by lia.
  rewrite lookup_app_r by lia.
  replace (length (split " " before) + 0 - length (split " " before)) with 0 by lia.
  cbn. by rewrite sliceButLast_append.
Qed.

End FeedbackSummaryFacts.

Lemma getPositiveFeedbackPercentage_last_word_witness :
  getPositiveFeedbackPercentage
    (fun text => JS.of_nat (String.length text))
    {| userTopLine := None;
       positiveFeedbackText := Some "Positive feedback 99.5%"%string;
       feedbackCards := [] |}
  = JS.Normal (JS.of_nat 4).
Proof.
  apply (getPositiveFeedbackPercentage_last_word
           (fun text => JS.of_nat (String.length text))
           {| userTopLine := None;
              positiveFeedbackText := Some "Positive feedback 99.5%"%string;
              feedbackCards := [] |}
           "Positive feedback" "99.5" "%"); reflexivity.
Defined.

(** ** The sums over the items *)

Section ItemTotalsFacts.

Local Open Scope Q_scope.

Lemma inject_nat_nonneg (n : nat) : 0 <= inject_Z (Z.of_nat n).
Proof. unfold Qle. cbn. lia. Qed.

Lemma inject_nat_succ (n : nat) :
  inject_Z (Z.of_nat (S n)) == inject_Z (Z.of_nat n) + 1.
Proof. rewrite Nat2Z.inj_succ. unfold Z.succ. by rewrite inject_Z_plus. Qed.

Lemma inject_nat_le (m n : nat) :
  (m <= n)%nat -> inject_Z (Z.of_nat m) <= inject_Z (Z.of_nat n).
Proof. intros H. unfold Qle. cbn. lia. Qed.

Lemma getItemDescriptionLength_length (itemPage : ItemPage) (x : number) :
  getItemDescriptionLength itemPage = Some x -> exists k : nat, x = JS.of_nat k.
Proof.
  unfold getItemDescriptionLength.
  destruct (desc_ifr itemPage) as [iframe|]; [|done]. cbn.
  destruct (contentFrame iframe) as [frame|]; [|done]. cbn.
  destruct (ds_div frame) as [text|]; [|done]. cbn.
  intros [= <-]. by eexists.
Qed.

Lemma noItems_bounded : itemTotalsBounded noItems 0.
Proof.
  exists 0, 0, 0, 0, 0. cbn. repeat (split; [done|]).
  right. by exists 0.
Qed.

(** One turn of the loop keeps the totals bounded. *)
Lemma sampleItem_bounded (t t' : ItemTotals) (n : nat) (linkTag : ItemLink) :
  itemTotalsBounded t n ->
  sampleItem t linkTag = JS.Normal t' ->
  itemTotalsBounded t' (S n).
Proof.
  intros (i & a & f & r & p & Hi & Ha & Hf & Hr & Hp & Hi0 & Hf0 & Hfa & Hp0 & Hpr & Hrn & Hd).
  pose proof (inject_nat_succ n) as Hsucc.
  destruct linkTag as [itemPage|]; cbn [sampleItem].
  - destruct (getReturnDetails itemPage) as [rd|] eqn:Hrd; [|done].
    intros [= <-]. cbn [totalImageCount totalDescriptionLength allowPostageCount
                        freePostageCount acceptReturnsCount sellerPaysReturnPostageCount].
    rewrite Hi, Ha, Hf, Hr, Hp.
    pose proof (isFree_allowsPostage itemPage) as Hfree.
    pose proof (sellerPays_returnAllowed itemPage rd Hrd) as Hpays.
    pose proof (inject_nat_nonneg (imageButtons itemPage)) as Himg.
    unfold getItemImageCount, JS.of_nat. cbn [JS.add].
    assert (Hdesc :
      JS.add (totalDescriptionLength t) (JS.to_number (getItemDescriptionLength itemPage)) = NaN
      \/ exists d, JS.add (totalDescriptionLength t)
                          (JS.to_number (getItemDescriptionLength itemPage)) = Fin d /\ 0 <= d).
    { destruct (getItemDescriptionLength itemPage) as [x|] eqn:Hx; cbn.
      - apply getItemDescriptionLength_length in Hx as [k ->].
        destruct Hd as [-> | (d & -> & Hd0)]; [by left|].
        right. eexists. split; [reflexivity|].
        pose proof (inject_nat_nonneg k). lra.
      - left. by destruct (totalDescriptionLength t). }
    destruct (allowsPostage (getPostageDetails itemPage)),
             (isFree (getPostageDetails itemPage)),
             (returnAllowed rd), (sellerPays rd);
      try (by specialize (Hfree eq_refl)); try (by specialize (Hpays eq_refl));
      cbn [JS.of_bool JS.add];
      (eexists _, _, _, _, _; repeat (split; [reflexivity|]);
       repeat (split; [lra|]); exact Hdesc).
  - intros [= <-]. exists i, a, f, r, p.
    repeat (split; [done|]). split; [lra|done].
Qed.

Lemma sampleItems_bounded (itemLinks : list ItemLink) (t t' : ItemTotals) (n : nat) :
  itemTotalsBounded t n ->
  sampleItems t itemLinks = JS.Normal t' ->
  itemTotalsBounded t' (n + length itemLinks).
Proof.
  revert t n. induction itemLinks as [|linkTag rest IH]; intros t n Hb; cbn [sampleItems].
  - intros [= <-]. by rewrite Nat.add_0_r.
  - destruct (sampleItem t linkTag) as [t1|] eqn:E; [|done].
    intros Hrest. cbn [length]. rewrite <- Nat.add_succ_comm.
    apply (IH t1); [|done]. by apply (sampleItem_bounded t t1 n linkTag).
Qed.

(** A share of a count within another, with the fallback for the empty
    case, is a finite percentage. *)
Lemma percentage_guarded (a b : Q) :
  0 <= a -> a <= b ->
  finitePercentage (JS.or (JS.mul (JS.div (Fin a) (Fin b)) (Fin 100)) (Fin 0)).
Proof.
  intros Ha Hab. unfold JS.div.
  destruct (Qeq_bool b 0) eqn:Eb.
  - apply Qeq_bool_iff in Eb.
    assert (Ea : Qeq_bool a 0 = true) by (apply Qeq_bool_iff; lra).
    rewrite Ea. cbn. exists 0. split; [done|]. lra.
  - apply Qeq_bool_neq in Eb.
    assert (Hb : 0 < b) by lra.
    assert (H0 : 0 <= a / b) by (apply Qle_shift_div_l; lra).
    assert (H1 : a / b <= 1) by (apply Qle_shift_div_r; lra).
    cbn [JS.mul]. unfold JS.or, JS.truthy.
    destruct (negb (Qeq_bool (a / b * 100) 0)).
    + eexists. split; [reflexivity|]. lra.
    + exists 0. split; [done|]. lra.
Qed.

(** A sum that is not negative over a count, with the fallback. *)
Lemma average_guarded (total : Q) (n : nat) :
  0 <= total -> (n = 0%nat -> total == 0) ->
  finiteNonNegative (JS.or (JS.div (Fin total) (JS.of_nat n)) (Fin 0)).
Proof.
  intros Ht Hn. unfold JS.of_nat, JS.div.
  destruct (Qeq_bool (inject_Z (Z.of_nat n)) 0) eqn:Eb.
  - apply Qeq_bool_iff in Eb.
    assert (n = 0%nat) as -> by (unfold Qeq in Eb; cbn in Eb; lia).
    assert (Ea : Qeq_bool total 0 = true) by (apply Qeq_bool_iff; by apply Hn).
    rewrite Ea. cbn. exists 0. split; [done|]. lra.
  - apply Qeq_bool_neq in Eb.
    pose proof (inject_nat_nonneg n) as Hnn.
    assert (H0 : 0 <= total / inject_Z (Z.of_nat n)) by (apply Qle_shift_div_l; lra).
    unfold JS.or, JS.truthy.
    destruct (negb (Qeq_bool (total / inject_Z (Z.of_nat n)) 0)).
    + eexists. split; [reflexivity|]. lra.
    + exists 0. split; [done|]. lra.
Qed.

End ItemTotalsFacts.

Section ItemDetailsFacts.

Local Open Scope Q_scope.

(** X6: when [browseItemDetails] completes, whatever the pages held, the
    two averages it stores are finite and not negative and the three
    percentages are finite and between 0 and 100. *)
Theorem browseItemDetails_fields_bounded
    (itemLinks : list ItemLink) (sellerStats : SellerStats) :
  (browseItemDetails itemLinks sellerStats).2 = JS.Normal tt ->
  let result := (browseItemDetails itemLinks sellerStats).1 in
  finiteNonNegative (averageImageCount result) /\
  finiteNonNegative (averageDescriptionLength result) /\
  finitePercentage (freePostagePercentage result) /\
  finitePercentage (acceptReturnsPercentage result) /\
  finitePercentage (sellerPaysReturnsPercentage result).
Proof.
  unfold browseItemDetails.
  destruct (sampleItems noItems (tail itemLinks)) as [t|] eqn:E; [|done].
  intros _. cbn.
  pose proof (sampleItems_bounded _ _ _ _ noItems_bounded E) as Hb.
  destruct Hb as (i & a & f & r & p & Hi & Ha & Hf & Hr & Hp
                    & Hi0 & Hf0 & Hfa & Hp0 & Hpr & Hrn & Hd).
  rewrite Hi, Ha, Hf, Hr, Hp.
  assert (Hempty : length (tail itemLinks) = 0%nat ->
                   i == 0 /\ totalDescriptionLength t = Fin 0).
  { intros Hlen. destruct (tail itemLinks); [|done].
    cbn in E. injection E as <-. cbn in Hi. assert (i = 0) as -> by congruence. done. }
  split; [|split; [|split; [|split]]].
  - apply average_guarded; [done|]. intros H. by apply Hempty.
  - destruct Hd as [-> | (d & Hdt & Hd0)].
    + exists 0. cbn. split; [done|]. lra.
    + rewrite Hdt. apply average_guarded; [done|]. intros H.
      destruct (Hempty H) as [_ Hd]. assert (d = 0) as -> by congruence.
      reflexivity.
  - by apply percentage_guarded.
  - apply percentage_guarded; [lra|]. by rewrite Nat.add_0_l in Hrn.
  - by apply percentage_guarded.
Qed.

Lemma browseItemDetails_fields_bounded_witness :
  finitePercentage
    (acceptReturnsPercentage
       (browseItemDetails describedAndUndescribed initialSellerStats).1).
Proof.
  apply (browseItemDetails_fields_bounded describedAndUndescribed initialSellerStats).
  reflexivity.
Defined.

(** A link whose navigation fails changes no sum. *)
Lemma sampleItems_loaded (itemLinks : list ItemLink) (t : ItemTotals) :
  sampleItems t itemLinks = sampleItems t (LinkLoads <$> loadedPages itemLinks).
Proof.
  revert t. induction itemLinks as [|linkTag rest IH]; intros t; [done|].
  destruct linkTag as [itemPage|].
  - change (loadedPages (LinkLoads itemPage :: rest))
      with (itemPage :: loadedPages rest).
    cbn [fmap list_fmap sampleItems].
    destruct (sampleItem t (LinkLoads itemPage)); [|done]. apply IH.
  - change (loadedPages (LinkFails :: rest)) with (loadedPages rest).
    cbn [sampleItems sampleItem]. apply IH.
Qed.

(** X7: what [browseItemDetails] stores, and whether it throws, depends
    on the links only through their number and through the pages that
    load, in their order: a link whose navigation fails counts in
    [activeItems] and in nothing else, wherever it stands. *)
Theorem browseItemDetails_failed_links
    (itemLinks1 itemLinks2 : list ItemLink) (sellerStats : SellerStats) :
  length itemLinks1 = length itemLinks2 ->
  loadedPages (tail itemLinks1) = loadedPages (tail itemLinks2) ->
  browseItemDetails itemLinks1 sellerStats = browseItemDetails itemLinks2 sellerStats.
Proof.
  intros Hlen Hpages. unfold browseItemDetails.
  rewrite (sampleItems_loaded (tail itemLinks1)), (sampleItems_loaded (tail itemLinks2)).
  rewrite Hpages.
  assert (Hl : length (tail itemLinks1) = length (tail itemLinks2)).
  { destruct itemLinks1, itemLinks2; cbn in *; lia. }
  by rewrite Hl.
Qed.

Lemma browseItemDetails_failed_links_witness :
  browseItemDetails
    [LinkFails; LinkFails; LinkLoads (itemPageWith None None)] initialSellerStats
  = browseItemDetails
      [LinkLoads (itemPageWith None None); LinkLoads (itemPageWith None None); LinkFails]
      initialSellerStats.
Proof.
  apply (browseItemDetails_failed_links
           [LinkFails; LinkFails; LinkLoads (itemPageWith None None)]
           [LinkLoads (itemPageWith None None); LinkLoads (itemPageWith None None); LinkFails]);
    reflexivity.
Defined.

End ItemDetailsFacts.

(** ** The two shares computed by concurrent tasks *)

Section ShareFacts.

Local Open Scope Q_scope.

Variable parseFloat : string -> number.

(** The tasks count every element and, among them, those whose parsed
    price is at most the criteria. *)
Lemma foldl_priceTask (elements : list (option string)) (priceCount cheapPriceCount : nat) :
  foldl (priceTask parseFloat) (priceCount, cheapPriceCount) elements =
  ((priceCount + length elements)%nat,
   (cheapPriceCount +
    length (filter (fun priceText =>
                      JS.le (parsedPrice parseFloat priceText) CHEAP_ITEM_CRITERIA = true)
                   elements))%nat).
Proof.
  revert priceCount cheapPriceCount.
  induction elements as [|priceText rest IH]; intros pc cc; cbn [foldl].
  - cbn. by rewrite !Nat.add_0_r.
  - unfold priceTask at 2. fold (parsedPrice parseFloat priceText).
    rewrite IH. rewrite filter_cons.
    destruct (JS.le (parsedPrice parseFloat priceText) CHEAP_ITEM_CRITERIA) eqn:E.
    + rewrite decide_True by done. cbn [length]. f_equal; lia.
    + rewrite decide_False by done. cbn [length]. f_equal; lia.
Qed.

Lemma share_finite (a b : Q) :
  0 <= a -> a <= b -> 0 < b ->
  finitePercentage (JS.mul (JS.div (Fin a) (Fin b)) (Fin 100)).
Proof.
  intros Ha Hab Hb. unfold JS.div.
  assert (Eb : Qeq_bool b 0 = false).
  { destruct (Qeq_bool b 0) eqn:E; [|done]. apply Qeq_bool_iff in E. lra. }
  rewrite Eb. cbn [JS.mul].
  assert (H0 : 0 <= a / b) by (apply Qle_shift_div_l; lra).
  assert (H1 : a / b <= 1) by (apply Qle_shift_div_r; lra).
  eexists. split; [reflexivity|]. lra.
Qed.

(** X8: [cheapItemsPercentage] becomes the number of price elements
    after the first whose text, once its first character is dropped, parses
    to at most 10, divided by the number of price elements after the first,
    times 100; an element without text or with a price that parses to
    [NaN] counts below the line only.  With two elements or more this is a
    finite number between 0 and 100. *)
Theorem getCheapItemsPercentage_share
    (itemPriceElements : list (option string)) (sellerStats : SellerStats) :
  let cheap :=
    filter (fun priceText =>
              JS.le (parsedPrice parseFloat priceText) CHEAP_ITEM_CRITERIA = true)
           (tail itemPriceElements) in
  cheapItemsPercentage (getCheapItemsPercentage parseFloat itemPriceElements sellerStats)
  = JS.mul (JS.div (JS.of_nat (length cheap))
                   (JS.of_nat (length (tail itemPriceElements))))
           (Fin 100) /\
  ((2 <= length itemPriceElements)%nat ->
   finitePercentage
     (cheapItemsPercentage
        (getCheapItemsPercentage parseFloat itemPriceElements sellerStats))).
Proof.
  intros cheap.
  assert (Heq :
    cheapItemsPercentage (getCheapItemsPercentage parseFloat itemPriceElements sellerStats)
    = JS.mul (JS.div (JS.of_nat (length cheap))
                     (JS.of_nat (length (tail itemPriceElements))))
             (Fin 100)).
  { unfold getCheapItemsPercentage. by rewrite foldl_priceTask. }
  split; [done|]. intros Hlen. rewrite Heq. unfold JS.of_nat.
  apply share_finite.
  - apply inject_nat_nonneg.
  - apply inject_nat_le. apply length_filter.
  - assert (1 <= length (tail itemPriceElements))%nat.
    { destruct itemPriceElements; cbn in *; lia. }
    unfold Qlt. cbn. lia.
Qed.

End ShareFacts.

Lemma getCheapItemsPercentage_share_witness :
  finitePercentage
    (cheapItemsPercentage
       (getCheapItemsPercentage (fun _ => Fin 10) [None; Some "x10"%string]
          initialSellerStats)).
Proof.
  apply (proj2 (getCheapItemsPercentage_share (fun _ => Fin 10)
                  [None; Some "x10"%string] initialSellerStats)).
  cbn. lia.
Defined.

Section DuplicateShareFacts.

Local Open Scope Q_scope.

Lemma size_list_to_set_le `{Countable A} (l : list A) :
  (size (list_to_set l : gset A) <= length l)%nat.
Proof.
  induction l as [|x l IH]; cbn [length].
  - by rewrite list_to_set_nil, size_empty.
  - rewrite list_to_set_cons, size_union_alt, size_singleton.
    assert (size (list_to_set l ∖ {[x]} : gset A) <= size (list_to_set l : gset A))%nat
      by (apply subseteq_size; set_solver).
    lia.
Qed.

Lemma length_omap_le {A B : Type} (f : A -> option B) (l : list A) :
  (length (omap f l) <= length l)%nat.
Proof.
  induction l as [|x l IH]; [done|].
  assert (Ho : omap f (x :: l) =
                 match f x with Some y => y :: omap f l | None => omap f l end) by done.
  rewrite Ho. destruct (f x); cbn [length]; lia.
Qed.

(** The count stays below the number of rows scanned. *)
Lemma scanFeedback_count_lt (rows : list FeedbackRow) :
  rows <> [] -> ((scanFeedback rows).2 < length rows)%nat.
Proof.
  intros Hne.
  pose proof (scanFeedback_count rows) as Hc.
  assert (Hs : (size (said rows) <= length rows)%nat).
  { unfold said. etrans; [apply size_list_to_set_le|apply length_omap_le]. }
  destruct (decide (said rows = ∅)) as [He|He].
  - rewrite He, size_empty in Hc. destruct rows; [done|]. cbn [length]. lia.
  - apply set_choose_L in He as [p Hp].
    assert (Hin : p.1 ∈ comments rows).
    { unfold comments. apply elem_of_map. by exists p. }
    assert (size (comments rows) ≠ 0%nat).
    { intros Hz. apply size_empty_inv in Hz. set_solver. }
    lia.
Qed.

(** X9: when two feedback rows or more are found, whatever the order in
    which the tasks complete, the duplicate percentage returned is a
    finite number, at least 0 and below 100. *)
Theorem findDuplicateFeedbackPercentage_below_100
    (feedbackContainers : list FeedbackRow) (result : number) :
  (2 <= length feedbackContainers)%nat ->
  findDuplicateFeedbackPercentage feedbackContainers result ->
  exists q, result = Fin q /\ 0 <= q /\ q < 100.
Proof.
  intros Hlen [order Horder].
  unfold findDuplicateFeedbackPercentage_in, JS.of_nat.
  assert (Hne : order <> []).
  { intros ->. apply Permutation_nil_l in Horder.
    destruct feedbackContainers as [|? [|? ?]]; cbn in *; [lia|lia|done]. }
  pose proof (scanFeedback_count_lt order Hne) as Hlt.
  rewrite (Permutation_length Horder) in Hlt.
  set (count := (scanFeedback order).2) in *.
  set (rows := length (tail feedbackContainers)) in *.
  assert (Hc : 0 <= inject_Z (Z.of_nat count)) by apply inject_nat_nonneg.
  assert (Hcr : inject_Z (Z.of_nat count) < inject_Z (Z.of_nat rows)).
  { unfold Qlt. cbn. lia. }
  unfold JS.div.
  assert (Eb : Qeq_bool (inject_Z (Z.of_nat rows)) 0 = false).
  { destruct (Qeq_bool (inject_Z (Z.of_nat rows)) 0) eqn:E; [|done].
    apply Qeq_bool_iff in E. lra. }
  rewrite Eb. cbn [JS.mul].
  eexists. split; [reflexivity|].
  assert (H0 : 0 <= inject_Z (Z.of_nat count) / inject_Z (Z.of_nat rows))
    by (apply Qle_shift_div_l; lra).
  assert (H1 : inject_Z (Z.of_nat count) / inject_Z (Z.of_nat rows) < 1)
    by (apply Qlt_shift_div_r; lra).
  lra.
Qed.

Lemma findDuplicateFeedbackPercentage_below_100_witness :
  exists q,
    findDuplicateFeedbackPercentage_in (tail threeReviewers) threeReviewers = Fin q
    /\ 0 <= q /\ q < 100.
Proof.
  apply (findDuplicateFeedbackPercentage_below_100 threeReviewers).
  - cbn. lia.
  - by constructor.
Defined.

End DuplicateShareFacts.

(** ** More on the rater *)

Section RaterOrderFacts.

(** The flags pushed over a run of entries, in closed form. *)
Lemma flags_foldl_filter (entries : list (StatKey * StatValue)) (acc : Totals) :
  flags (foldl visit acc entries) =
  flags acc ++
  ((fun entry => factorFlags entry.1) <$>
     filter (fun entry => flagRaised entry.1 (entryNumber entry.1 entry.2) = true) entries).
Proof.
  revert acc. induction entries as [|[key value] entries IH]; intros acc; cbn [foldl].
  - cbn. by rewrite app_nil_r.
  - rewrite IH, flags_visit, filter_cons. cbn [fst snd].
    destruct (flagRaised key (entryNumber key value)) eqn:E.
    + rewrite decide_True by done. cbn [fmap list_fmap fst]. by rewrite <- app_assoc.
    + by rewrite decide_False by done.
Qed.

(** X10: no flag is returned twice. *)
Theorem flags_no_duplicates (s : SellerStats) : NoDup (rateSeller s).2.
Proof.
  assert (Hsub : (rateSeller s).2 `sublist_of` allFlags).
  { unfold rateSeller. cbn [snd]. unfold rateSeller_totals.
    rewrite flags_foldl_filter. cbn [flags initialTotals app].
    etrans.
    - apply fmap_sublist. apply sublist_filter.
    - unfold statsEntries. destruct (timeSinceCreation s); cbn.
      + done.
      + change allFlags with (take 11 allFlags ++ [NewAccount]).
        by apply sublist_inserts_r. }
  eapply sublist_NoDup; [|exact Hsub].
  by apply (bool_decide_unpack _); vm_compute.
Qed.

(** X11: a number that is [NaN] raises no flag for its key: both tests
    compare it and find nothing. *)
Theorem NaN_raises_no_flag (s : SellerStats) (key : StatKey) (value : StatValue) :
  (key, value) ∈ statsEntries s ->
  entryNumber key value = NaN ->
  factorFlags key ∉ (rateSeller s).2.
Proof.
  intros Hin Hnan Hflag.
  apply (flag_iff_raised s key value Hin) in Hflag.
  rewrite Hnan in Hflag. by destruct key.
Qed.

Lemma NaN_raises_no_flag_witness : LowSoldItems ∉ (rateSeller sellerWithNaN).2.
Proof.
  apply (NaN_raises_no_flag sellerWithNaN K_soldItems (V_number NaN)).
  - cbn. apply list_elem_of_further, list_elem_of_here.
  - reflexivity.
Defined.

End RaterOrderFacts.

Section RaterNaNFacts.

Local Open Scope Q_scope.

Lemma add_NaN_r (x : number) : JS.add x NaN = NaN.
Proof. by destruct x. Qed.

(** The ceiling sums of any record. *)
Lemma ceilings_any (s : SellerStats) :
  exists c : Q,
    maximumPositiveScore (rateSeller_totals s) = Fin c /\ 0 < c /\
    minimumNegativeScore (rateSeller_totals s) = Fin (-13).
Proof.
  destruct (timeSinceCreation s) as [t|] eqn:Ht.
  - destruct (ceilings_full s t Ht) as [-> ->]. exists 65. by repeat split.
  - destruct (ceilings_without_time s Ht) as [-> ->]. exists 58. by repeat split.
Qed.

(** X12: for every record, with or without [timeSinceCreation], in
    which none of the numbers the rater reads is [NaN], the score is a
    finite number between 0 and 100. *)
Theorem score_finite_without_NaN (s : SellerStats) :
  noNaN s -> finitePercentage (rateSeller s).1.
Proof.
  intros Hall.
  destruct (totals_finite (statsEntries s) initialTotals Hall) as (p & n & Hp & Hn).
  { by exists 0, 0. }
  destruct (ceilings_any s) as (c & Hc & Hc0 & Hm).
  unfold rateSeller, normalizedPositiveScore, normalizedNegativeScore.
  cbn [fst]. unfold rateSeller_totals in *. rewrite Hp, Hn, Hc, Hm.
  assert (Ec : Qeq_bool c 0 = false).
  { destruct (Qeq_bool c 0) eqn:E; [|done]. apply Qeq_bool_iff in E. lra. }
  unfold JS.div. rewrite Ec.
  change (Qeq_bool (-13) 0) with false. cbn [JS.mul JS.sub JS.neg JS.add].
  destruct (clamp_range (Fin (p / c * 100 + - (n / -13 * 100))) 0 100)
    as (q & -> & Hq0 & Hq1); [done|by vm_compute|].
  by exists q.
Qed.

Lemma score_finite_without_NaN_witness : finitePercentage (rateSeller initialSellerStats).1.
Proof.
  apply score_finite_without_NaN. unfold noNaN. cbn. repeat constructor.
Defined.

End RaterNaNFacts.

Section RaterExtremesFacts.

Local Open Scope Q_scope.

Lemma Qeq_bool_nonzero (x : Q) : ~ x == 0 -> Qeq_bool x 0 = false.
Proof.
  intros H. destruct (Qeq_bool x 0) eqn:E; [|done].
  by apply Qeq_bool_iff in E.
Qed.

Lemma Qsign_neg_of_pos (x : Q) : 0 < x -> JS.Qsign_neg x = false.
Proof. intros H. apply Qlt_bool_false. lra. Qed.

Lemma Qsign_neg_of_neg (x : Q) : x < 0 -> JS.Qsign_neg x = true.
Proof. intros H. by apply Qlt_bool_true. Qed.

(** Where [clamp] puts a finite value. *)
Lemma clamp_Fin (v lo hi : Q) :
  lo <= hi ->
  exists u, clamp (Fin v) (Fin lo) (Fin hi) = Fin u /\
            (hi <= v -> u == hi) /\ (v <= lo -> u == lo) /\
            (lo <= v -> v <= hi -> u == v).
Proof.
  intros Hlh. unfold clamp. cbn.
  destruct (JS.Qlt_bool v lo) eqn:E1; cbn.
  - apply Qlt_bool_true in E1.
    destruct (JS.Qlt_bool hi lo) eqn:E2.
    + apply Qlt_bool_true in E2. lra.
    + exists lo. split; [done|]. repeat split; intros; lra.
  - apply Qlt_bool_false in E1.
    destruct (JS.Qlt_bool hi v) eqn:E2.
    + apply Qlt_bool_true in E2. exists hi. split; [done|]. repeat split; intros; lra.
    + apply Qlt_bool_false in E2. exists v. split; [done|]. repeat split; intros; lra.
Qed.

(** Every ceiling is above zero. *)
Lemma factor_cases_positive_max (key : StatKey) :
  exists w m,
    factorValues key = {| weight := Fin w; max := Fin m |} /\
    0 < m /\
    ((JS.gt (Fin w) (Fin 0) = true /\ 0 < w) \/
     (JS.gt (Fin w) (Fin 0) = false /\ w < 0)).
Proof.
  destruct key;
    (eexists _, _; split; [reflexivity|]; split;
     [by vm_compute
     | first [by left; split; vm_compute | by right; split; vm_compute]]).
Qed.

(** A positive factor at its ceiling or above adds its weight. *)
Lemma weighted_at_ceiling (x : number) (m w : Q) :
  0 < m -> 0 < w -> JS.le (Fin m) x = true ->
  exists u, clamp (JS.mul (JS.div x (Fin m)) (Fin w)) (Fin 0) (Fin w) = Fin u /\ u == w.
Proof.
  intros Hm Hw Hx. destruct x as [|b|q]; [done| |].
  - destruct b; [done|]. cbn [JS.div JS.mul].
    rewrite (Qsign_neg_of_pos m Hm). cbn [xorb JS.mul].
    rewrite Qeq_bool_nonzero by lra. rewrite (Qsign_neg_of_pos w Hw).
    exists w. by split.
  - cbn in Hx. apply Qle_bool_iff in Hx.
    cbn [JS.div]. rewrite Qeq_bool_nonzero by lra. cbn [JS.mul].
    assert (H1 : 1 <= q / m) by (apply Qle_shift_div_l; lra).
    assert (Hv : w <= q / m * w) by nra.
    destruct (clamp_Fin (q / m * w) 0 w) as (u & -> & Hhi & _); [lra|].
    exists u. split; [done|]. by apply Hhi.
Qed.

(** A positive factor at zero or below adds nothing. *)
Lemma weighted_at_zero (x : number) (m w : Q) :
  0 < m -> 0 < w -> JS.le x (Fin 0) = true ->
  exists u, clamp (JS.mul (JS.div x (Fin m)) (Fin w)) (Fin 0) (Fin w) = Fin u /\ u == 0.
Proof.
  intros Hm Hw Hx. destruct x as [|b|q]; [done| |].
  - destruct b; [|done]. cbn [JS.div JS.mul].
    rewrite (Qsign_neg_of_pos m Hm). cbn [xorb JS.mul].
    rewrite Qeq_bool_nonzero by lra. rewrite (Qsign_neg_of_pos w Hw).
    exists 0. split; [|reflexivity]. unfold clamp. cbn.
    by rewrite (proj2 (Qlt_bool_false w 0)) by lra.
  - cbn in Hx. apply Qle_bool_iff in Hx.
    cbn [JS.div]. rewrite Qeq_bool_nonzero by lra. cbn [JS.mul].
    assert (H1 : q / m <= 0) by (apply Qle_shift_div_r; lra).
    assert (Hv : q / m * w <= 0) by nra.
    destruct (clamp_Fin (q / m * w) 0 w) as (u & -> & _ & Hlo & _); [lra|].
    exists u. split; [done|]. by apply Hlo.
Qed.

(** A negative factor at zero or below takes nothing away. *)
Lemma weighted_negative_at_zero (x : number) (m w : Q) :
  0 < m -> w < 0 -> JS.le x (Fin 0) = true ->
  exists u, clamp (JS.mul (JS.div x (Fin m)) (Fin w)) (Fin w) (Fin 0) = Fin u /\ u == 0.
Proof.
  intros Hm Hw Hx. destruct x as [|b|q]; [done| |].
  - destruct b; [|done]. cbn [JS.div JS.mul].
    rewrite (Qsign_neg_of_pos m Hm). cbn [xorb JS.mul].
    rewrite Qeq_bool_nonzero by lra. rewrite (Qsign_neg_of_neg w Hw).
    exists 0. split; [|reflexivity]. unfold clamp. cbn. done.
  - cbn in Hx. apply Qle_bool_iff in Hx.
    cbn [JS.div]. rewrite Qeq_bool_nonzero by lra. cbn [JS.mul].
    assert (H1 : q / m <= 0) by (apply Qle_shift_div_r; lra).
    assert (Hv : 0 <= q / m * w) by nra.
    destruct (clamp_Fin (q / m * w) w 0) as (u & -> & Hhi & _); [lra|].
    exists u. split; [done|]. by apply Hhi.
Qed.

End RaterExtremesFacts.

Section RaterExtremesClaims.

Local Open Scope Q_scope.

(** With every entry at its best, the positive sum keeps up with the
    positive ceiling sum and the negative sum stays zero. *)
Lemma foldl_visit_atBest (entries : list (StatKey * StatValue)) (acc : Totals) :
  (forall key value,
     (key, value) ∈ entries ->
     if JS.gt (weight (factorValues key)) (Fin 0)
     then JS.le (max (factorValues key)) (entryNumber key value) = true
     else JS.le (entryNumber key value) (Fin 0) = true) ->
  (exists p c n,
     totalPositiveWeightedScore acc = Fin p /\ maximumPositiveScore acc = Fin c /\
     p == c /\ totalNegativeWeightedScore acc = Fin n /\ n == 0) ->
  exists p c n,
    totalPositiveWeightedScore (foldl visit acc entries) = Fin p /\
    maximumPositiveScore (foldl visit acc entries) = Fin c /\
    p == c /\ totalNegativeWeightedScore (foldl visit acc entries) = Fin n /\ n == 0.
Proof.
  revert acc. induction entries as [|[key value] entries IH]; intros acc Hall Hacc; [done|].
  cbn [foldl]. apply IH.
  { intros k v Hin. apply Hall. by right. }
  specialize (Hall key value (list_elem_of_here _ _)).
  destruct Hacc as (p & c & n & Hp & Hc & Hpc & Hn & Hn0).
  destruct (factor_cases_positive_max key) as (w & m & Hf & Hm & [[Hgt Hw]|[Hgt Hw]]);
    unfold visit; rewrite Hf in Hall |- *; cbn [weight max] in Hall |- *;
    rewrite Hgt in Hall |- *;
    cbn [totalPositiveWeightedScore totalNegativeWeightedScore
         maximumPositiveScore minimumNegativeScore].
  - destruct (weighted_at_ceiling _ m w Hm Hw Hall) as (u & -> & Hu).
    rewrite Hp, Hc, Hn. cbn [JS.add].
    eexists _, _, _. repeat (split; [reflexivity|]). split; [lra|]. by split.
  - destruct (weighted_negative_at_zero _ m w Hm Hw Hall) as (u & -> & Hu).
    rewrite Hp, Hc, Hn. cbn [JS.add].
    eexists _, _, _. repeat (split; [reflexivity|]). split; [done|].
    split; [reflexivity|lra].
Qed.

(** With no positive factor above zero, the positive sum stays zero and
    the negative sum is finite and at most zero. *)
Lemma foldl_visit_nothingPositive (entries : list (StatKey * StatValue)) (acc : Totals) :
  (forall key value,
     (key, value) ∈ entries ->
     if JS.gt (weight (factorValues key)) (Fin 0)
     then JS.le (entryNumber key value) (Fin 0) = true
     else JS.isNaN (entryNumber key value) = false) ->
  (exists p n,
     totalPositiveWeightedScore acc = Fin p /\ p == 0 /\
     totalNegativeWeightedScore acc = Fin n /\ n <= 0) ->
  exists p n,
    totalPositiveWeightedScore (foldl visit acc entries) = Fin p /\ p == 0 /\
    totalNegativeWeightedScore (foldl visit acc entries) = Fin n /\ n <= 0.
Proof.
  revert acc. induction entries as [|[key value] entries IH]; intros acc Hall Hacc; [done|].
  cbn [foldl]. apply IH.
  { intros k v Hin. apply Hall. by right. }
  specialize (Hall key value (list_elem_of_here _ _)).
  destruct Hacc as (p & n & Hp & Hp0 & Hn & Hn0).
  destruct (factor_cases_positive_max key) as (w & m & Hf & Hm & [[Hgt Hw]|[Hgt Hw]]);
    unfold visit; rewrite Hf in Hall |- *; cbn [weight max] in Hall |- *;
    rewrite Hgt in Hall |- *;
    cbn [totalPositiveWeightedScore totalNegativeWeightedScore
         maximumPositiveScore minimumNegativeScore].
  - destruct (weighted_at_zero _ m w Hm Hw Hall) as (u & -> & Hu).
    rewrite Hp, Hn. cbn [JS.add].
    eexists _, _. split; [reflexivity|]. split; [lra|]. by split.
  - destruct (clamp_range (JS.mul (JS.div (entryNumber key value) (Fin m)) (Fin w)) w 0)
      as (u & -> & Hu1 & Hu2).
    + apply mul_notNaN; [lra|]. apply div_notNaN; [lra|done].
    + lra.
    + rewrite Hp, Hn. cbn [JS.add].
      eexists _, _. split; [reflexivity|]. split; [done|]. split; [reflexivity|lra].
Qed.

(** X13: a record whose positive factors are all at their ceiling or
    above, infinite values included, and whose negative factors are at zero
    or below is rated 100, with or without [timeSinceCreation] (with
    [clamp] as [min] of [max]). *)
Theorem rated_100_at_best (s : SellerStats) :
  atBest s -> JS.eq (rateSeller s).1 (Fin 100) = true.
Proof.
  intros Hbest.
  destruct (foldl_visit_atBest (statsEntries s) initialTotals Hbest)
    as (p & c & n & Hp & Hc & Hpc & Hn & Hn0).
  { exists 0, 0, 0. by repeat split. }
  destruct (ceilings_any s) as (c' & Hc' & Hc0 & Hm).
  unfold rateSeller_totals in Hc', Hm.
  assert (c = c') as -> by congruence.
  unfold rateSeller, normalizedPositiveScore, normalizedNegativeScore.
  cbn [fst]. unfold rateSeller_totals. rewrite Hp, Hc, Hn, Hm.
  unfold JS.div. rewrite Qeq_bool_nonzero by lra.
  change (Qeq_bool (-13) 0) with false. cbn [JS.mul JS.sub JS.neg JS.add].
  assert (Hv : p / c' * 100 + - (n / -13 * 100) == 100).
  { rewrite Hpc, Hn0. field. lra. }
  destruct (clamp_Fin (p / c' * 100 + - (n / -13 * 100)) 0 100)
    as (u & -> & Hhi & _); [lra|].
  cbn. apply Qeq_bool_iff. apply Hhi. lra.
Qed.

Lemma rated_100_at_best_witness :
  JS.eq (rateSeller (sellerAtCeilings (daysOnly (Inf false)))).1 (Fin 100) = true.
Proof.
  apply rated_100_at_best. intros key value Hin.
  unfold statsEntries in Hin. cbn in Hin.
  repeat (apply elem_of_cons in Hin as [[= -> ->]|Hin]; [reflexivity|]).
  by apply elem_of_nil in Hin.
Defined.

(** X14: a record whose positive factors are all at zero or below is
    rated 0, whatever its negative factors as long as they are not [NaN]
    (with [clamp] as [min] of [max]). *)
Theorem rated_0_without_positive (s : SellerStats) :
  nothingPositive s -> JS.eq (rateSeller s).1 (Fin 0) = true.
Proof.
  intros Hnone.
  destruct (foldl_visit_nothingPositive (statsEntries s) initialTotals Hnone)
    as (p & n & Hp & Hp0 & Hn & Hn0).
  { exists 0, 0. repeat split; lra. }
  destruct (ceilings_any s) as (c & Hc & Hc0 & Hm).
  unfold rateSeller_totals in Hc, Hm.
  unfold rateSeller, normalizedPositiveScore, normalizedNegativeScore.
  cbn [fst]. unfold rateSeller_totals. rewrite Hp, Hc, Hn, Hm.
  unfold JS.div. rewrite Qeq_bool_nonzero by lra.
  change (Qeq_bool (-13) 0) with false. cbn [JS.mul JS.sub JS.neg JS.add].
  assert (Hpos : p / c * 100 == 0).
  { rewrite Hp0. field. lra. }
  assert (Hneg : 0 <= n / -13 * 100).
  { assert (n / -13 == n * (-1 # 13)) as -> by (by unfold Qdiv). lra. }
  destruct (clamp_Fin (p / c * 100 + - (n / -13 * 100)) 0 100)
    as (u & -> & _ & Hlo & _); [lra|].
  cbn. apply Qeq_bool_iff. apply Hlo. lra.
Qed.

Lemma rated_0_without_positive_witness :
  JS.eq (rateSeller sellerWithNothing).1 (Fin 0) = true.
Proof.
  apply rated_0_without_positive. intros key value Hin.
  unfold statsEntries in Hin. cbn in Hin.
  repeat (apply elem_of_cons in Hin as [[= -> ->]|Hin]; [reflexivity|]).
  by apply elem_of_nil in Hin.
Defined.

End RaterExtremesClaims.

(** ** The whole run *)

Section RunFacts.

Variable parseFloat : string -> number.
Variable Number_of_string : string -> number.
Variable Date_of_string : string -> number.
Variable currentTime : number.

Lemma sampleItems_throws_iff (itemLinks : list ItemLink) (t : ItemTotals) :
  sampleItems t itemLinks = JS.Throw_TypeError <->
  exists itemPage,
    LinkLoads itemPage ∈ itemLinks /\ getReturnDetails itemPage = JS.Throw_TypeError.
Proof.
  revert t. induction itemLinks as [|linkTag rest IH]; intros t; cbn [sampleItems].
  - split; [done|]. intros (itemPage & Hin & _). by apply elem_of_nil in Hin.
  - destruct linkTag as [itemPage|]; cbn [sampleItem].
    + destruct (getReturnDetails itemPage) as [rd|] eqn:Hrd.
      * rewrite IH. split.
        -- intros (pg & Hin & Hthrow). exists pg. split; [by right|done].
        -- intros (pg & [[= ->]|Hin]%elem_of_cons & Hthrow); [congruence|].
           by exists pg.
      * split; [|done]. intros _. exists itemPage. split; [left|done].
    + rewrite IH. split.
      * intros (pg & Hin & Hthrow). exists pg. split; [by right|done].
      * intros (pg & [[=]|Hin]%elem_of_cons & Hthrow). by exists pg.
Qed.

Lemma browseItemDetails_keeps (itemLinks : list ItemLink) (sellerStats : SellerStats) :
  soldItems (browseItemDetails itemLinks sellerStats).1 = soldItems sellerStats /\
  cheapItemsPercentage (browseItemDetails itemLinks sellerStats).1
    = cheapItemsPercentage sellerStats.
Proof.
  unfold browseItemDetails.
  by destruct (sampleItems noItems (tail itemLinks)).
Qed.

(** X15: as far as the pages themselves load, [scrapeSellerData] throws
    exactly when [getReturnDetails] throws on an item page that loads
    behind a link after the first, or the feedback page has no summary of
    the positive feedback; nothing else the pages lack ends the run. *)
Theorem scrapeSellerData_throws_iff (completionOrder : list FeedbackRow) (site : Site) :
  (scrapeSellerData parseFloat Number_of_string Date_of_string currentTime
     completionOrder site).2 = JS.Throw_TypeError <->
  (exists itemPage,
     LinkLoads itemPage ∈ tail (itemLinks site) /\
     getReturnDetails itemPage = JS.Throw_TypeError) \/
  positiveFeedbackText (feedbackPage site) = None.
Proof.
  unfold scrapeSellerData, browseItemDetails.
  rewrite <- (sampleItems_throws_iff (tail (itemLinks site)) noItems).
  destruct (sampleItems noItems (tail (itemLinks site))) as [t|]; cbn [snd].
  - unfold browseSellerFeedback, getPositiveFeedbackPercentage.
    destruct (positiveFeedbackText (feedbackPage site)) as [text|]; cbn [snd].
    + destruct (split_nonempty " " text) as (piece & pieces & ->).
      destruct ((piece :: pieces) !! (length (piece :: pieces) - 1)) eqn:E.
      * cbn. split; [done|]. by intros [?|?].
      * apply lookup_ge_None in E. cbn in E. lia.
    + cbn. split; [by right|done].
  - split; [by left|done].
Qed.

(** X16: when the run completes, the record it leaves holds [NaN] as
    [soldItems] if the count of sold items cannot be read, as
    [cheapItemsPercentage] if no price element follows the first, as
    [duplicateFeedbackPercentage] if no feedback row follows the first, and
    as [days] of [timeSinceCreation] if the creation date cannot be
    read. *)
Theorem scrape_unreadable_leaves_NaN (completionOrder : list FeedbackRow) (site : Site) :
  let run := scrapeSellerData parseFloat Number_of_string Date_of_string currentTime
               completionOrder site in
  completionOrder ≡ₚ tail (feedbackCards (feedbackPage site)) ->
  run.2 = JS.Normal tt ->
  (soldItemsText site = None -> soldItems run.1 = NaN) /\
  (length (itemPriceElements site) <= 1 -> cheapItemsPercentage run.1 = NaN) /\
  (length (feedbackCards (feedbackPage site)) <= 1 ->
   duplicateFeedbackPercentage run.1 = NaN) /\
  (creationDate site = None ->
   exists t, timeSinceCreation run.1 = Some t /\ days t = NaN).
Proof.
  intros run Horder. subst run. unfold scrapeSellerData.
  set (s1 := getCheapItemsPercentage parseFloat (itemPriceElements site)
               (getSoldItems Number_of_string (soldItemsText site) initialSellerStats)).
  pose proof (browseItemDetails_keeps (itemLinks site) s1) as [Hsold Hcheap].
  destruct (browseItemDetails (itemLinks site) s1) as [s2 [[]|]]; [|done].
  cbn [fst] in Hsold, Hcheap.
  unfold browseSellerFeedback.
  destruct (getPositiveFeedbackPercentage Number_of_string (feedbackPage site))
    as [positive|]; [|done].
  cbn [fst snd]. intros _.
  split; [|split; [|split]].
  - intros Hs. cbn. rewrite Hsold. subst s1.
    unfold getCheapItemsPercentage.
    destruct (foldl (priceTask parseFloat) (0, 0) (tail (itemPriceElements site))).
    cbn. by rewrite Hs.
  - intros Hp. cbn. rewrite Hcheap. subst s1.
    assert (Ht : tail (itemPriceElements site) = []).
    { destruct (itemPriceElements site) as [|? [|? ?]]; cbn in *; [done|done|lia]. }
    unfold getCheapItemsPercentage. by rewrite Ht.
  - intros Hf. cbn.
    assert (Ht : tail (feedbackCards (feedbackPage site)) = []).
    { destruct (feedbackCards (feedbackPage site)) as [|? [|? ?]];
        cbn in *; [done|done|lia]. }
    rewrite Ht in Horder. apply Permutation_nil_r in Horder. subst completionOrder.
    unfold findDuplicateFeedbackPercentage_in. by rewrite Ht.
  - intros Hd. eexists. split; [reflexivity|].
    rewrite Hd. unfold getTimeSince, JS.sub. cbn [Date_of JS.neg].
    by rewrite add_NaN_r.
Qed.

End RunFacts.

Lemma scrape_unreadable_leaves_NaN_witness :
  cheapItemsPercentage
    (scrapeSellerData (fun _ => NaN) (fun _ => Fin 99) (fun _ => Fin 0) (Fin 1000) []
       {| soldItemsText := Some "12 sold"%string;
          itemPriceElements := [None];
          itemLinks := [LinkFails];
          feedbackPage := {| userTopLine := Some "3"%string;
                             positiveFeedbackText := Some "Positive 99%"%string;
                             feedbackCards := [] |};
          creationDate := Some "1 Jan 2020"%string |}).1 = NaN.
Proof.
  refine (proj1 (proj2
    (scrape_unreadable_leaves_NaN (fun _ => NaN) (fun _ => Fin 99) (fun _ => Fin 0)
       (Fin 1000) []
       {| soldItemsText := Some "12 sold"%string;
          itemPriceElements := [None];
          itemLinks := [LinkFails];
          feedbackPage := {| userTopLine := Some "3"%string;
                             positiveFeedbackText := Some "Positive 99%"%string;
                             feedbackCards := [] |};
          creationDate := Some "1 Jan 2020"%string |} _ _)) _).
  - reflexivity.
  - reflexivity.
  - cbn. lia.
Defined.

(** ** Order of the price tasks, first word, and absence of duplicates *)

Section MoreShareFacts.

Variable parseFloat : string -> number.
Variable Number_of_string : string -> number.

(** X17: the two counters of the price tasks, and so the share stored, do
    not depend on the order in which the tasks run. *)
Theorem priceTasks_order_independent (order elements : list (option string)) :
  order ≡ₚ elements ->
  foldl (priceTask parseFloat) (0, 0) order = foldl (priceTask parseFloat) (0, 0) elements.
Proof.
  intros Hperm. rewrite !foldl_priceTask. by rewrite Hperm.
Qed.

(** X18: [getSoldItems] stores what [Number] makes of the title up to its
    first space, whatever follows, and [NaN] when there is no title. *)
Theorem getSoldItems_first_word (sellerStats : SellerStats) (word rest : string) :
  occurs " " word = false ->
  soldItems (getSoldItems Number_of_string
               (Some (String.append word (String " " rest))) sellerStats)
    = Number_of_string word /\
  soldItems (getSoldItems Number_of_string None sellerStats) = NaN.
Proof.
  intros Hword. split; [|done].
  unfold getSoldItems. cbn [set_soldItems soldItems mbind option_bind].
  rewrite split_append, (split_no_separator _ _ Hword). done.
Qed.

End MoreShareFacts.

Lemma priceTasks_order_independent_witness :
  foldl (priceTask (fun _ => Fin 3)) (0, 0) [None; Some "x3"%string]
  = foldl (priceTask (fun _ => Fin 3)) (0, 0) [Some "x3"%string; None].
Proof.
  apply (priceTasks_order_independent (fun _ => Fin 3)
           [None; Some "x3"%string] [Some "x3"%string; None]).
  apply Permutation_swap.
Defined.

Lemma getSoldItems_first_word_witness :
  soldItems (getSoldItems (fun text => JS.of_nat (String.length text))
               (Some "1234 items sold"%string) initialSellerStats)
  = JS.of_nat 4.
Proof.
  apply (proj1 (getSoldItems_first_word (fun text => JS.of_nat (String.length text))
                  initialSellerStats "1234" "items sold" eq_refl)).
Defined.

Section NoDuplicateFacts.

Lemma size_set_map_le {A B : Type} `{Countable A, Countable B}
      (f : A -> B) (X : gset A) :
  size (set_map f X : gset B) <= size X.
Proof.
  unfold set_map. etrans; [apply size_list_to_set_le|].
  by rewrite length_fmap.
Qed.

(** X19: the count of duplicates is 0 exactly when no counted comment was
    left by two different users, whatever the order of the scan. *)
Theorem no_duplicates_iff (rows : list FeedbackRow) :
  (scanFeedback rows).2 = 0 <->
  forall comment user1 user2,
    (comment, user1) ∈ said rows -> (comment, user2) ∈ said rows -> user1 = user2.
Proof.
  pose proof (scanFeedback_count rows) as Hc. unfold comments in Hc.
  split.
  - intros Hz c u1 u2 H1 H2.
    destruct (decide (u1 = u2)) as [|Hne]; [done|]. exfalso.
    set (S := said rows) in *.
    assert (Hmap : (set_map fst S : gset string)
                   = set_map fst (S ∖ {[ (c, u1) ]})).
    { apply set_eq. intros c'. rewrite !elem_of_map. split.
      - intros ([c0 u0] & -> & Hin). cbn.
        destruct (decide ((c0, u0) = (c, u1))) as [[= -> ->]|Hd].
        + exists (c, u2). split; [done|]. set_solver.
        + exists (c0, u0). split; [done|]. set_solver.
      - intros (p & -> & Hin). exists p. split; [done|]. set_solver. }
    pose proof (size_set_map_le fst (S ∖ {[ (c, u1) ]}) (B := string)) as Hle.
    rewrite <- Hmap in Hle.
    assert (Hsize : size S = size (S ∖ {[ (c, u1) ]}) + 1).
    { replace S with ({[ (c, u1) ]} ∪ (S ∖ {[ (c, u1) ]})) at 1.
      - rewrite size_union by set_solver. rewrite size_singleton. lia.
      - apply set_eq. intros p. rewrite elem_of_union, elem_of_difference,
          elem_of_singleton.
        destruct (decide (p = (c, u1))) as [->|]; naive_solver. }
    lia.
  - intros Hinj.
    assert (Hsz : size (set_map fst (said rows) : gset string) = size (said rows)).
    { apply size_set_map_inj_on. intros [c1 u1] [c2 u2] H1 H2 E. cbn in E. subst c2.
      by rewrite (Hinj c1 u1 u2 H1 H2). }
    lia.
Qed.

End NoDuplicateFacts.
